(** * AtomicAds alert lifecycle engine: a shallow embedding

    The TypeScript sources are embedded as Rocq functions.

    - A [Date] is its millisecond time stamp; an absent date ([null] or
      [undefined], which the code treats alike) is [None].
    - A mutable document is passed explicitly: a method that assigns to the
      fields of [preference] returns the updated record.
    - Every [new Date()] / [Date.now()] of the source is a clock reading; the
      function that performs it receives the reading as an argument, so that
      a caller performing several readings is given several arguments.
    - [console.log] output has no influence on any value and is left out.
    - A [number] that counts (reminder count, bulk counters) is an integer. *)

From Stdlib Require Import ZArith String List Bool Lia Permutation Arith.
From Stdlib Require Import DecimalString.
Import ListNotations.
Local Open Scope string_scope.
Local Open Scope Z_scope.
Local Open Scope list_scope.

(** ** Types (src/types/index.ts) *)

Definition Date := Z.
Definition ObjectId := string.

Inductive DeliveryType := IN_APP | EMAIL | SMS.
Inductive VisibilityType := ORGANIZATION | TEAM | USER.
Inductive AlertStatus := ACTIVE | EXPIRED | ARCHIVED.

Definition DeliveryType_eqb (a b : DeliveryType) : bool :=
  match a, b with
  | IN_APP, IN_APP | EMAIL, EMAIL | SMS, SMS => true
  | _, _ => false
  end.

Record IUser := mkUser {
  user_id : ObjectId;
  user_name : string;
  user_teamId : option ObjectId;
  user_isActive : bool
}.

Record ITeam := mkTeam {
  team_id : ObjectId;
  team_name : string;
  team_isActive : bool
}.

Record IUserAlertPreference := mkPreference {
  userId : ObjectId;
  alertId : ObjectId;
  isRead : bool;
  isSnoozed : bool;
  snoozedUntil : option Date;
  lastReminderSent : option Date;
  reminderCount : Z
}.

(** Field assignments [preference.f = v]. *)
Definition set_isRead (v : bool) (p : IUserAlertPreference) :=
  mkPreference (userId p) (alertId p) v (isSnoozed p) (snoozedUntil p)
               (lastReminderSent p) (reminderCount p).
Definition set_isSnoozed (v : bool) (p : IUserAlertPreference) :=
  mkPreference (userId p) (alertId p) (isRead p) v (snoozedUntil p)
               (lastReminderSent p) (reminderCount p).
Definition set_snoozedUntil (v : option Date) (p : IUserAlertPreference) :=
  mkPreference (userId p) (alertId p) (isRead p) (isSnoozed p) v
               (lastReminderSent p) (reminderCount p).
Definition set_lastReminderSent (v : option Date) (p : IUserAlertPreference) :=
  mkPreference (userId p) (alertId p) (isRead p) (isSnoozed p) (snoozedUntil p)
               v (reminderCount p).
Definition set_reminderCount (v : Z) (p : IUserAlertPreference) :=
  mkPreference (userId p) (alertId p) (isRead p) (isSnoozed p) (snoozedUntil p)
               (lastReminderSent p) v.

(** [d && d > now] for an optional date [d]: an absent date is falsy. *)
Definition date_after (d : option Date) (now : Date) : bool :=
  match d with
  | Some u => now <? u
  | None => false
  end.

(** [d && d <= now]. *)
Definition date_not_after (d : option Date) (now : Date) : bool :=
  match d with
  | Some u => u <=? now
  | None => false
  end.

(** [hours * 60 * 60 * 1000] *)
Definition hours_ms (hours : Z) : Z := hours * 60 * 60 * 1000.

(** ** The state pattern (services/alerts/states/AlertStates.ts) *)

(** interface IAlertState: the four methods every state implements.  The
    arguments of type [Date] are the clock readings the method performs. *)
Module IAlertState.
Record t := Build {
  markAsRead : IUserAlertPreference -> IUserAlertPreference;
  snooze : Date -> IUserAlertPreference -> Z -> IUserAlertPreference;
  unsnooze : IUserAlertPreference -> IUserAlertPreference;
  canReceiveReminder : Date -> IUserAlertPreference -> bool * IUserAlertPreference
}.
End IAlertState.

Module UnreadState.
Definition markAsRead (preference : IUserAlertPreference) :=
  set_snoozedUntil None (set_isSnoozed false (set_isRead true preference)).

Definition snooze (now : Date) (preference : IUserAlertPreference) (hours : Z) :=
  set_snoozedUntil (Some (now + hours_ms hours)) (set_isSnoozed true preference).

Definition unsnooze (preference : IUserAlertPreference) :=
  set_snoozedUntil None (set_isSnoozed false preference).

Definition canReceiveReminder (now : Date) (preference : IUserAlertPreference)
  : bool * IUserAlertPreference :=
  let isCurrentlySnoozed :=
    isSnoozed preference && date_after (snoozedUntil preference) now in
  (negb isCurrentlySnoozed, preference).
End UnreadState.

Module ReadState.
Definition markAsRead (preference : IUserAlertPreference) := preference.

Definition snooze (now : Date) (preference : IUserAlertPreference) (hours : Z) :=
  preference.

Definition unsnooze (preference : IUserAlertPreference) :=
  set_snoozedUntil None (set_isSnoozed false preference).

Definition canReceiveReminder (now : Date) (preference : IUserAlertPreference)
  : bool * IUserAlertPreference :=
  (false, preference).
End ReadState.

Module SnoozedState.
Definition markAsRead (preference : IUserAlertPreference) :=
  set_snoozedUntil None (set_isSnoozed false (set_isRead true preference)).

Definition snooze (now : Date) (preference : IUserAlertPreference) (hours : Z) :=
  set_snoozedUntil (Some (now + hours_ms hours)) preference.

Definition unsnooze (preference : IUserAlertPreference) :=
  set_snoozedUntil None (set_isSnoozed false preference).

Definition canReceiveReminder (now : Date) (preference : IUserAlertPreference)
  : bool * IUserAlertPreference :=
  let isSnoozeExpired :=
    match snoozedUntil preference with
    | None => true
    | Some u => u <=? now
    end in
  if isSnoozeExpired then (true, unsnooze preference)
  else (false, preference).
End SnoozedState.

Module AlertPreferenceStateContext.
Definition unreadState : IAlertState.t :=
  IAlertState.Build UnreadState.markAsRead UnreadState.snooze
                    UnreadState.unsnooze UnreadState.canReceiveReminder.
Definition readState : IAlertState.t :=
  IAlertState.Build ReadState.markAsRead ReadState.snooze
                    ReadState.unsnooze ReadState.canReceiveReminder.
Definition snoozedState : IAlertState.t :=
  IAlertState.Build SnoozedState.markAsRead SnoozedState.snooze
                    SnoozedState.unsnooze SnoozedState.canReceiveReminder.

Definition isCurrentlySnoozed (now : Date) (preference : IUserAlertPreference) : bool :=
  isSnoozed preference && date_after (snoozedUntil preference) now.

Definition getCurrentState (now : Date) (preference : IUserAlertPreference)
  : IAlertState.t :=
  if isRead preference then readState
  else if isSnoozed preference && isCurrentlySnoozed now preference then snoozedState
  else unreadState.

(** In the four delegating methods [now] is the reading of
    [getCurrentState] and [now'] the one of the state's own method. *)
Definition markAsRead (now : Date) (preference : IUserAlertPreference) :=
  let currentState := getCurrentState now preference in
  IAlertState.markAsRead currentState preference.

Definition snooze (now now' : Date) (preference : IUserAlertPreference) (hours : Z) :=
  let currentState := getCurrentState now preference in
  IAlertState.snooze currentState now' preference hours.

Definition unsnooze (now : Date) (preference : IUserAlertPreference) :=
  let currentState := getCurrentState now preference in
  IAlertState.unsnooze currentState preference.

Definition canReceiveReminder (now now' : Date) (preference : IUserAlertPreference)
  : bool * IUserAlertPreference :=
  let currentState := getCurrentState now preference in
  IAlertState.canReceiveReminder currentState now' preference.

Definition getStateName (now : Date) (preference : IUserAlertPreference) : string :=
  if isRead preference then "READ"
  else if isSnoozed preference && isCurrentlySnoozed now preference then "SNOOZED"
  else "UNREAD".

(** Returns the flag [hasChanged] and the preference. *)
Definition processAutomaticTransitions (now now' : Date)
           (preference : IUserAlertPreference) : bool * IUserAlertPreference :=
  if isSnoozed preference && negb (isCurrentlySnoozed now preference)
  then (true, unsnooze now' preference)
  else (false, preference).

Definition getAvailableActions (now : Date) (preference : IUserAlertPreference)
  : list string :=
  let actions : list string := [] in
  let actions :=
    if negb (isRead preference) then actions ++ ["markAsRead"] else actions in
  let actions :=
    if negb (isRead preference) && negb (isCurrentlySnoozed now preference)
    then actions ++ ["snooze"] else actions in
  let actions :=
    if isSnoozed preference then actions ++ ["unsnooze"] else actions in
  actions.
End AlertPreferenceStateContext.

(** ** The preference model (models/UserAlertPreference.ts) *)

Module UserAlertPreference.
(** virtual('isCurrentlySnoozed') *)
Definition isCurrentlySnoozed (now : Date) (this : IUserAlertPreference) : bool :=
  isSnoozed this && date_after (snoozedUntil this) now.

(** virtual('isSnoozeExpired') *)
Definition isSnoozeExpired (now : Date) (this : IUserAlertPreference) : bool :=
  isSnoozed this && date_not_after (snoozedUntil this) now.

(** pre('save') middleware *)
Definition preSave (now : Date) (this : IUserAlertPreference) : IUserAlertPreference :=
  let this :=
    if isSnoozed this && date_not_after (snoozedUntil this) now
    then set_snoozedUntil None (set_isSnoozed false this)
    else this in
  let this :=
    if negb (isSnoozed this) then set_snoozedUntil None this else this in
  this.

(** A loaded document: the fields in memory and the fields as last
    written to the collection. *)
Record Document := mkDocument {
  mem : IUserAlertPreference;
  stored : IUserAlertPreference
}.

(** [doc.save()]: the hook runs on the document, then it is written. *)
Definition save (now : Date) (doc : Document) : Document :=
  let this := preSave now (mem doc) in
  mkDocument this this.

(** [doc.recordReminderSent()]: [now] is the reading of [new Date()],
    [now'] the one of the hook of the method's own [this.save()]. *)
Definition recordReminderSent (now now' : Date) (doc : Document) : Document :=
  let this := set_lastReminderSent (Some now) (mem doc) in
  let this := set_reminderCount (reminderCount this + 1) this in
  save now' (mkDocument this (stored doc)).

(** The filter of [findUsersNeedingReminder]: [now] is the reading of the
    query. *)
Definition needsReminder (now : Date) (alert : ObjectId) (reminderIntervalMinutes : Z)
           (p : IUserAlertPreference) : bool :=
  let reminderThreshold := now - reminderIntervalMinutes * 60 * 1000 in
  String.eqb (alertId p) alert
  && negb (isRead p)
  && (negb (isSnoozed p) || (isSnoozed p && date_not_after (snoozedUntil p) now))
  && match lastReminderSent p with
     | None => true
     | Some t => t <=? reminderThreshold
     end.
End UserAlertPreference.

(** ** Promises and exceptions

    An [async] function running in a world [W] (the database, or the local
    variables its closures capture) yields the world it leaves and how its
    promise settles.  A task is run to completion when it is launched:
    tasks launched together run one after the other in launch order. *)

Record JsError := mkError { err_name : string; err_message : string }.

Inductive Settled (A : Type) :=
| Fulfilled (a : A)
| Rejected (e : JsError).
Arguments Fulfilled {A} a.
Arguments Rejected {A} e.

Definition Async (W A : Type) := W -> W * Settled A.

Section AsyncOps.
Context {W : Type}.

Definition resolve {A} (a : A) : Async W A := fun w => (w, Fulfilled a).

Definition throw {A} (e : JsError) : Async W A := fun w => (w, Rejected e).

(** [const x = await m; k x] *)
Definition await {A B} (m : Async W A) (k : A -> Async W B) : Async W B :=
  fun w =>
    match m w with
    | (w', Fulfilled a) => k a w'
    | (w', Rejected e) => (w', Rejected e)
    end.

(** [try { body } catch (error) { handler error }] *)
Definition try_catch {A} (body : Async W A) (handler : JsError -> Async W A)
  : Async W A :=
  fun w =>
    match body w with
    | (w', Fulfilled a) => (w', Fulfilled a)
    | (w', Rejected e) => handler e w'
    end.

(** [Promise.all(ps)] over promises already launched: every task has run;
    the result rejects with the first rejection, if any. *)
Fixpoint promise_all {A} (ps : list (Async W A)) : Async W (list A) :=
  match ps with
  | [] => resolve []
  | p :: ps' =>
      fun w =>
        let (w1, r) := p w in
        let (w2, rs) := promise_all ps' w1 in
        (w2, match r, rs with
             | Rejected e, _ => Rejected e
             | Fulfilled _, Rejected e => Rejected e
             | Fulfilled a, Fulfilled l => Fulfilled (a :: l)
             end)
  end.
End AsyncOps.

Notation "'let*' x ':=' m 'in' k" := (await m (fun x => k))
  (at level 10, x pattern, m at level 100, k at level 200).

(** ** Alerts *)

Inductive AlertSeverity := INFO | WARNING | CRITICAL.
Inductive AlertAction := created | updated | reminder | expired.

Record Visibility := mkVisibility {
  vis_type : VisibilityType;
  targetIds : list ObjectId
}.

Record IAlert := mkAlert {
  alert_id : ObjectId;
  title : string;
  message : string;
  severity : AlertSeverity;
  deliveryType : DeliveryType;
  reminderFrequencyMinutes : Z;
  startTime : Date;
  expiryTime : option Date;
  isActive : bool;
  isReminderEnabled : bool;
  visibility : Visibility;
  createdBy : ObjectId;
  status : AlertStatus;
  _context : option AlertAction
}.

Record CreateAlertRequest := mkCreateAlertRequest {
  req_title : string;
  req_message : string;
  req_severity : AlertSeverity;
  req_deliveryType : DeliveryType;
  req_reminderFrequencyMinutes : option Z;
  req_startTime : option Date;
  req_expiryTime : option Date;
  req_isReminderEnabled : option bool;
  req_visibility : Visibility
}.

(** ** The observer pattern (services/alerts/AlertSubject.ts) *)

Section Subject.
Context {W : Type}.

(** interface IAlertObserver *)
Record IAlertObserver := mkObserver {
  update : IAlert -> list IUser -> Async W unit
}.

Record AlertSubject := mkSubject {
  observers : list IAlertObserver
}.




Definition notifyObservers (this : AlertSubject) (alert : IAlert) (users : list IUser)
  : Async W unit :=
  if (length (observers this) =? 0)%nat then resolve tt
  else
    try_catch
      (let notificationPromises :=
         map (fun observer =>
                try_catch
                  (let* _ := update observer alert users in resolve tt)
                  (fun error => resolve tt))
             (observers this) in
       let* _ := promise_all notificationPromises in
       resolve tt)
      (fun error => resolve tt).

(** [{ ...alert.toObject(), _context: context }] *)
Definition alertWithContext (alert : IAlert) (action : AlertAction) : IAlert :=
  mkAlert (alert_id alert) (title alert) (message alert) (severity alert)
          (deliveryType alert) (reminderFrequencyMinutes alert) (startTime alert)
          (expiryTime alert) (isActive alert) (isReminderEnabled alert)
          (visibility alert) (createdBy alert) (status alert) (Some action).

Definition notifyObserversWithContext (this : AlertSubject) (alert : IAlert)
           (users : list IUser) (action : AlertAction) : Async W unit :=
  let alertWithContext := alertWithContext alert action in
  let* _ := notifyObservers this alertWithContext users in
  resolve tt.
End Subject.
Arguments IAlertObserver W : clear implicits.
Arguments AlertSubject W : clear implicits.

(** ** The dispatch strategy (services/notifications/NotificationStrategy.ts) *)

(** interface INotificationChannel.  What a send does to the channel's own
    records is not modelled: [send] gives how the promise of
    [channel.send(alert, user)] settles. *)
Record INotificationChannel := mkChannel {
  getType : DeliveryType;
  send : IAlert -> IUser -> Settled bool
}.

Record NotificationStrategy := mkStrategy {
  channels : DeliveryType -> option INotificationChannel
}.

Definition addChannel (this : NotificationStrategy) (channel : INotificationChannel)
  : NotificationStrategy :=
  mkStrategy (fun type =>
                if DeliveryType_eqb type (getType channel) then Some channel
                else channels this type).

Definition removeChannel (this : NotificationStrategy) (type : DeliveryType)
  : NotificationStrategy :=
  mkStrategy (fun type' =>
                if DeliveryType_eqb type' type then None else channels this type').

Definition hasChannel (this : NotificationStrategy) (type : DeliveryType) : bool :=
  match channels this type with Some _ => true | None => false end.

(** The accumulators [results], [successful], [failed] of
    [sendBulkNotifications], which the callbacks of a batch share. *)
Record BulkResult := mkBulkResult {
  successful : Z;
  failed : Z;
  results : list (IUser * bool)
}.

Definition slice {A} (i j : nat) (l : list A) : list A :=
  firstn (j - i) (skipn i l).

Section Strategy.
Context {W : Type}.

Definition sendNotification (this : NotificationStrategy) (alert : IAlert)
           (user : IUser) (deliveryType : DeliveryType) : Async W bool :=
  match channels this deliveryType with
  | None => resolve false
  | Some channel =>
      try_catch
        (let* success := (fun w => (w, send channel alert user)) in
         resolve success)
        (fun error => resolve false)
  end.
End Strategy.

Section Bulk.
(** The callbacks of a batch resume, once their send has settled, in the
    order in which the sends settle: [settled batch] is that order. *)
Variable settled : list IUser -> list IUser.

Definition batchSize : nat := 10.

Definition batchCallback (this : NotificationStrategy) (alert : IAlert)
           (deliveryType : DeliveryType) (user : IUser)
  : Async BulkResult (IUser * bool) :=
  let* success := sendNotification this alert user deliveryType in
  fun acc =>
    let acc := mkBulkResult (successful acc) (failed acc)
                            (results acc ++ [(user, success)]) in
    let acc :=
      if (success : bool)
      then mkBulkResult (successful acc + 1) (failed acc) (results acc)
      else mkBulkResult (successful acc) (failed acc + 1) (results acc) in
    (acc, Fulfilled (user, success)).

(** [for (let i = ...; i < users.length; i += batchSize)], at most [fuel]
    iterations.  The pause between two batches changes no value. *)
Fixpoint batchLoop (fuel : nat) (this : NotificationStrategy) (alert : IAlert)
         (users : list IUser) (deliveryType : DeliveryType) (i : nat)
  : Async BulkResult unit :=
  match fuel with
  | O => resolve tt
  | S fuel' =>
      if (i <? length users)%nat then
        let batch := slice i (i + batchSize) users in
        let batchPromises :=
          map (batchCallback this alert deliveryType) (settled batch) in
        let* _ := promise_all batchPromises in
        batchLoop fuel' this alert users deliveryType (i + batchSize)
      else resolve tt
  end.

(** The loop advances by [batchSize] > 0, so [length users] iterations
    are never exhausted. *)
Definition sendBulkNotifications (this : NotificationStrategy) (alert : IAlert)
           (users : list IUser) (deliveryType : DeliveryType)
  : Settled BulkResult :=
  match batchLoop (length users) this alert users deliveryType 0
                  (mkBulkResult 0 0 []) with
  | (acc, Fulfilled _) => Fulfilled acc
  | (_, Rejected e) => Rejected e
  end.
End Bulk.

(** ** The lifecycle service (services/alerts/AlertService.ts) *)

(** The collections the service reads and writes.  [_id] is unique within
    a collection. *)
Record Db := mkDb {
  Team : list ITeam;
  User : list IUser;
  Alert : list IAlert
}.

Definition VisibilityType_eqb (a b : VisibilityType) : bool :=
  match a, b with
  | ORGANIZATION, ORGANIZATION | TEAM, TEAM | USER, USER => true
  | _, _ => false
  end.

Definition AlertStatus_eqb (a b : AlertStatus) : bool :=
  match a, b with
  | ACTIVE, ACTIVE | EXPIRED, EXPIRED | ARCHIVED, ARCHIVED => true
  | _, _ => false
  end.

(** [Model.find({ _id: { $in: ids } })]: the documents of the collection
    whose identity occurs among [ids]. *)
Definition find_id_in {A} (id : A -> ObjectId) (ids : list ObjectId) (coll : list A)
  : list A :=
  filter (fun d => existsb (String.eqb (id d)) ids) coll.

(** models/Alert.ts: the validators of the schema, on the fields modelled. *)
Definition Alert_validate (this : IAlert) : option JsError :=
  if (String.length (title this) =? 0)%nat then
    Some (mkError "ValidationError" "Alert title is required")
  else if (200 <? String.length (title this))%nat then
    Some (mkError "ValidationError" "Title cannot exceed 200 characters")
  else if (String.length (message this) =? 0)%nat then
    Some (mkError "ValidationError" "Alert message is required")
  else if (2000 <? String.length (message this))%nat then
    Some (mkError "ValidationError" "Message cannot exceed 2000 characters")
  else if reminderFrequencyMinutes this <? 1 then
    Some (mkError "ValidationError" "Reminder frequency must be at least 1 minute")
  else if 10080 <? reminderFrequencyMinutes this then
    Some (mkError "ValidationError"
                  "Reminder frequency cannot exceed 1 week (10080 minutes)")
  else if match expiryTime this with
          | None => true
          | Some value => startTime this <? value
          end
       then None
       else Some (mkError "ValidationError" "Expiry time must be after start time").

(** models/Alert.ts: pre('save') middleware *)
Definition Alert_preSave (now : Date) (this : IAlert) : IAlert :=
  if date_not_after (expiryTime this) now && AlertStatus_eqb (status this) ACTIVE
  then mkAlert (alert_id this) (title this) (message this) (severity this)
               (deliveryType this) (reminderFrequencyMinutes this) (startTime this)
               (expiryTime this) false (isReminderEnabled this)
               (visibility this) (createdBy this) EXPIRED (_context this)
  else this.

(** [alert.save()] of a new document *)
Definition Alert_save (now : Date) (this : IAlert) : Async Db IAlert :=
  match Alert_validate this with
  | Some e => throw e
  | None =>
      fun db =>
        let this := Alert_preSave now this in
        (mkDb (Team db) (User db) (Alert db ++ [this]), Fulfilled this)
  end.

Definition option_default {A} (d : A) (o : option A) : A :=
  match o with Some a => a | None => d end.

(** [new Alert({ ...alertData, createdBy, visibility })] with the defaults
    of the schema; [newId] is the identity the document is given. *)
Definition newAlert (now : Date) (newId : ObjectId) (createdBy : ObjectId)
           (alertData : CreateAlertRequest) : IAlert :=
  mkAlert newId (req_title alertData) (req_message alertData)
          (req_severity alertData) (req_deliveryType alertData)
          (option_default 120 (req_reminderFrequencyMinutes alertData))
          (option_default now (req_startTime alertData))
          (req_expiryTime alertData)
          true
          (option_default true (req_isReminderEnabled alertData))
          (mkVisibility (vis_type (req_visibility alertData))
                        (map (fun id => id) (targetIds (req_visibility alertData))))
          createdBy ACTIVE None.

(** [self.findIndex(u => u._id.toString() === id)] *)
Fixpoint findIndex (id : ObjectId) (self : list IUser) : option nat :=
  match self with
  | [] => None
  | u :: rest =>
      if String.eqb (user_id u) id then Some O
      else option_map S (findIndex id rest)
  end.

(** [targetUsers.filter((user, index, self) => self.findIndex(...) === index)] *)
Fixpoint filter_index (self : list IUser) (index : nat) (l : list IUser) : list IUser :=
  match l with
  | [] => []
  | user :: rest =>
      let keep :=
        match findIndex (user_id user) self with
        | Some i => (i =? index)%nat
        | None => false
        end in
      (if keep then [user] else []) ++ filter_index self (S index) rest
  end.

Definition option_ObjectId_eqb (a : option ObjectId) (b : ObjectId) : bool :=
  match a with Some x => String.eqb x b | None => false end.

Record AlertService := mkService {
  alertSubject : AlertSubject Db;
  notificationStrategy : NotificationStrategy
}.

Definition validateVisibilityTargets (visibility : Visibility) : Async Db unit :=
  if VisibilityType_eqb (vis_type visibility) ORGANIZATION then resolve tt
  else
    let* _ :=
      (if VisibilityType_eqb (vis_type visibility) TEAM then
         fun db =>
           let teams := find_id_in team_id (targetIds visibility) (Team db) in
           if negb (length teams =? length (targetIds visibility))%nat
           then throw (mkError "Error" "One or more team IDs are invalid") db
           else resolve tt db
       else resolve tt) in
    let* _ :=
      (if VisibilityType_eqb (vis_type visibility) USER then
         fun db =>
           let users := find_id_in user_id (targetIds visibility) (User db) in
           if negb (length users =? length (targetIds visibility))%nat
           then throw (mkError "Error" "One or more user IDs are invalid") db
           else resolve tt db
       else resolve tt) in
    resolve tt.

Definition getTargetUsers (alert : IAlert) : Async Db (list IUser) :=
  fun db =>
    let targetUsers :=
      match vis_type (visibility alert) with
      | ORGANIZATION => filter user_isActive (User db)
      | TEAM =>
          flat_map (fun teamId =>
                      filter (fun u => option_ObjectId_eqb (user_teamId u) teamId
                                       && user_isActive u) (User db))
                   (targetIds (visibility alert))
      | USER =>
          filter user_isActive
                 (find_id_in user_id (targetIds (visibility alert)) (User db))
      end in
    let uniqueUsers := filter_index targetUsers 0 targetUsers in
    (db, Fulfilled uniqueUsers).

(** [clock 0] is the reading of the schema default of [startTime],
    [clock 1] the one of the alert's save hook. *)
Definition createAlert (this : AlertService) (clock : nat -> Date) (newId : ObjectId)
           (createdBy : ObjectId) (alertData : CreateAlertRequest) : Async Db IAlert :=
  try_catch
    (let* _ := validateVisibilityTargets (req_visibility alertData) in
     let alert := newAlert (clock 0%nat) newId createdBy alertData in
     let* alert := Alert_save (clock 1%nat) alert in
     let* targetUsers := getTargetUsers alert in
     let* _ := notifyObserversWithContext (alertSubject this) alert targetUsers created in
     resolve alert)
    (fun error => throw error).

(** The callback of [preferencesNeedingReminder.map] in
    [processReminderForAlert], running on the loaded document
    [preference] whose populated user is [user].  [clock 0] and [clock 1]
    are the readings of [canReceiveReminder], [clock 2] and [clock 3] those
    of [recordReminderSent], [clock 4] the one of the final save. *)
Definition reminderCallback (this : AlertService) (clock : nat -> Date)
           (alert : IAlert) (user : IUser)
  : Async UserAlertPreference.Document unit :=
  fun preference =>
    let (can, p) :=
      AlertPreferenceStateContext.canReceiveReminder
        (clock 0%nat) (clock 1%nat) (UserAlertPreference.mem preference) in
    let preference :=
      UserAlertPreference.mkDocument p (UserAlertPreference.stored preference) in
    if can then
      (let* success :=
         sendNotification (notificationStrategy this) alert user (deliveryType alert) in
       if (success : bool) then
         fun preference =>
           let preference :=
             UserAlertPreference.recordReminderSent
               (clock 2%nat) (clock 3%nat) preference in
           let preference := UserAlertPreference.save (clock 4%nat) preference in
           (preference, Fulfilled tt)
       else resolve tt) preference
    else resolve tt preference.

(** [findUsersNeedingReminder(alertId, minutes)] over the loaded
    preferences, each with its populated user. *)
Definition findUsersNeedingReminder (now : Date) (alert : ObjectId)
           (reminderIntervalMinutes : Z)
           (collection : list (IUser * IUserAlertPreference))
  : list (IUser * UserAlertPreference.Document) :=
  map (fun up => (fst up, UserAlertPreference.mkDocument (snd up) (snd up)))
      (filter (fun up =>
                 UserAlertPreference.needsReminder
                   now alert reminderIntervalMinutes (snd up))
              collection).

(** The callbacks launched over the query result; the [k]-th one reads the
    clock [clock (S k)].  Each yields its document and how it settles. *)
Fixpoint reminderPromises (this : AlertService) (clock : nat -> nat -> Date)
         (alert : IAlert) (k : nat)
         (prefs : list (IUser * UserAlertPreference.Document))
  : list (UserAlertPreference.Document * Settled unit) :=
  match prefs with
  | [] => []
  | (user, preference) :: rest =>
      reminderCallback this (clock (S k)) alert user preference
      :: reminderPromises this clock alert (S k) rest
  end.

(** Yields the documents of the query result as the callbacks leave them,
    and the world and the settlement of the call.  [clock 0 0] is the
    reading of the query. *)
Definition processReminderForAlert (this : AlertService) (clock : nat -> nat -> Date)
           (alert : IAlert) (collection : list (IUser * IUserAlertPreference))
  : Db -> list UserAlertPreference.Document * (Db * Settled unit) :=
  fun db =>
    let preferencesNeedingReminder :=
      findUsersNeedingReminder (clock 0%nat 0%nat) (alert_id alert)
                               (reminderFrequencyMinutes alert) collection in
    if (length preferencesNeedingReminder =? 0)%nat then ([], (db, Fulfilled tt))
    else
      let ran := reminderPromises this clock alert 0 preferencesNeedingReminder in
      (map fst ran,
       try_catch
         (let* _ := promise_all (map (fun r => fun w => (w, snd r)) ran) in
          let targetUsers := map fst preferencesNeedingReminder in
          let* _ := notifyObserversWithContext (alertSubject this) alert
                                               targetUsers reminder in
          resolve tt)
         (fun error => resolve tt) db).

(** ** Specification-side definitions *)

(** The derived logical state as the specification words it: read, else
    snoozed with [snoozedUntil] in the future, else unread. *)
Definition derivedState (now : Date) (p : IUserAlertPreference) : string :=
  if isRead p then "READ"
  else if isSnoozed p && date_after (snoozedUntil p) now then "SNOOZED"
  else "UNREAD".

(** The state object that goes by a state name. *)
Definition stateNamed (name : string) : IAlertState.t :=
  if String.eqb name "READ" then AlertPreferenceStateContext.readState
  else if String.eqb name "SNOOZED" then AlertPreferenceStateContext.snoozedState
  else AlertPreferenceStateContext.unreadState.

(** The reminder query as the specification states it for an unread
    preference whose snooze window has elapsed at the time [now] of the
    call: true, with both snooze fields cleared. *)
Definition reminder_clears_elapsed_snooze (now : Date) (p : IUserAlertPreference) : Prop :=
  isRead p = false ->
  isSnoozed p = true ->
  (exists u, snoozedUntil p = Some u /\ u <= now) ->
  let r := AlertPreferenceStateContext.canReceiveReminder now now p in
  fst r = true /\ isSnoozed (snd r) = false /\ snoozedUntil (snd r) = None.

Definition same_elements (l l' : list string) : Prop :=
  forall a, In a l <-> In a l'.

(** The available actions as the specification lists them per state. *)
Definition actions_as_specified (now : Date) (p : IUserAlertPreference) : Prop :=
  let actions := AlertPreferenceStateContext.getAvailableActions now p in
  let state := AlertPreferenceStateContext.getStateName now p in
  (state = "UNREAD" -> same_elements actions ["markAsRead"; "snooze"])
  /\ (state = "SNOOZED" -> same_elements actions ["markAsRead"; "unsnooze"])
  /\ (state = "READ" -> same_elements actions []).

(** A stored snooze date is backed by the flag and lies after [now]. *)
Definition snooze_normalized (now : Date) (p : IUserAlertPreference) : Prop :=
  forall u, snoozedUntil p = Some u -> isSnoozed p = true /\ now < u.

(** The send of [channel] to [user] fails: it returns false or throws. *)
Definition sendFails (channel : INotificationChannel) (alert : IAlert) (user : IUser)
  : bool :=
  match send channel alert user with
  | Fulfilled true => false
  | _ => true
  end.

(** The send through the strategy succeeds: a channel is registered for the
    delivery type and its send returns true. *)
Definition sendSucceeds (this : NotificationStrategy) (alert : IAlert) (user : IUser)
           (type : DeliveryType) : bool :=
  match channels this type with
  | Some channel => negb (sendFails channel alert user)
  | None => false
  end.

(** Every identity of the scope resolves in the collection. *)
Definition all_resolve {A} (id : A -> ObjectId) (ids : list ObjectId) (coll : list A)
  : Prop :=
  forall i, In i ids -> exists d, In d coll /\ id d = i.

(** ** Sample data *)

Module Sample.
(** Unread, with a snooze that elapsed at time 5. *)
Definition stale : IUserAlertPreference :=
  mkPreference "u1" "a1" false true (Some 5) None 0.
(** Read, with the snooze flag still stored. *)
Definition readFlagged : IUserAlertPreference :=
  mkPreference "u1" "a1" true true (Some 5) None 0.
Definition read : IUserAlertPreference :=
  mkPreference "u1" "a1" true false None None 2.
Definition fresh : IUserAlertPreference :=
  mkPreference "u1" "a1" false false None None 0.

(** The identity of the one team of the directory. *)
Definition teamId : ObjectId := "65a1b2c3d4e5f60718293a01".

Definition alice : IUser := mkUser "u1" "Alice" (Some teamId) true.
Definition bob : IUser := mkUser "u2" "Bob" (Some teamId) true.
Definition carol : IUser := mkUser "u3" "Carol" None true.

Definition alert : IAlert :=
  mkAlert "a1" "Outage" "The service is down" CRITICAL IN_APP 120 0 None
          true true (mkVisibility ORGANIZATION []) "u0" ACTIVE None.

(** A channel that delivers to Alice, returns false for Bob and throws
    for everybody else. *)
Definition flaky : INotificationChannel :=
  mkChannel IN_APP
    (fun _ user =>
       if String.eqb (user_id user) "u1" then Fulfilled true
       else if String.eqb (user_id user) "u2" then Fulfilled false
       else Rejected (mkError "Error" "connection lost")).

Definition strategy : NotificationStrategy :=
  addChannel (mkStrategy (fun _ => None)) flaky.

Definition service : AlertService := mkService (mkSubject []) strategy.

Definition engineering : ITeam := mkTeam teamId "Engineering" true.

Definition db : Db := mkDb [engineering] [alice; bob; carol] [].

(** A team scope naming the one existing team twice. *)
Definition twice : Visibility := mkVisibility TEAM [teamId; teamId].

Definition clock (k i : nat) : Date := 100 + Z.of_nat k * 10 + Z.of_nat i.
End Sample.

(** * The rest of the engine *)

(** ** The preference model, continued (models/UserAlertPreference.ts) *)

Module PreferenceMethods.
(** [doc.shouldReceiveReminder(minutes)]: [now] is the reading of the
    virtual [isCurrentlySnoozed], [now'] the one of [Date.now()]. *)
Definition shouldReceiveReminder (now now' : Date) (reminderIntervalMinutes : Z)
           (this : IUserAlertPreference) : bool :=
  if isRead this then false
  else if UserAlertPreference.isCurrentlySnoozed now this then false
  else
    match lastReminderSent this with
    | None => true
    | Some last =>
        let timeSinceLastReminder := now' - last in
        let reminderIntervalMs := reminderIntervalMinutes * 60 * 1000 in
        reminderIntervalMs <=? timeSinceLastReminder
    end.

(** [findExpiredSnoozes()] over a collection *)
Definition findExpiredSnoozes (now : Date) (collection : list IUserAlertPreference)
  : list IUserAlertPreference :=
  filter (fun p => isSnoozed p && date_not_after (snoozedUntil p) now) collection.

(** [doc.markAsRead()] *)
Definition markAsRead (now : Date) (doc : UserAlertPreference.Document) :=
  UserAlertPreference.save
    now (UserAlertPreference.mkDocument
           (set_isRead true (UserAlertPreference.mem doc))
           (UserAlertPreference.stored doc)).

(** [doc.markAsUnread()] *)
Definition markAsUnread (now : Date) (doc : UserAlertPreference.Document) :=
  UserAlertPreference.save
    now (UserAlertPreference.mkDocument
           (set_isRead false (UserAlertPreference.mem doc))
           (UserAlertPreference.stored doc)).

(** [doc.snooze(hours)]: [now] is the reading of [Date.now()], [now'] the
    one of the save. *)
Definition snooze (now now' : Date) (hours : Z) (doc : UserAlertPreference.Document) :=
  let this := set_isSnoozed true (UserAlertPreference.mem doc) in
  let this := set_snoozedUntil (Some (now + hours_ms hours)) this in
  UserAlertPreference.save
    now' (UserAlertPreference.mkDocument this (UserAlertPreference.stored doc)).

(** [doc.unsnooze()] *)
Definition unsnooze (now : Date) (doc : UserAlertPreference.Document) :=
  let this := set_isSnoozed false (UserAlertPreference.mem doc) in
  let this := set_snoozedUntil None this in
  UserAlertPreference.save
    now (UserAlertPreference.mkDocument this (UserAlertPreference.stored doc)).
End PreferenceMethods.

(** ** The alert model (models/Alert.ts) *)

Module AlertModel.
(** [expiryTime] absent, or after [now] *)
Definition notExpiredAt (now : Date) (this : IAlert) : bool :=
  match expiryTime this with
  | None => true
  | Some e => now <? e
  end.

(** virtual('isCurrentlyActive') *)
Definition isCurrentlyActive (now : Date) (this : IAlert) : bool :=
  isActive this
  && AlertStatus_eqb (status this) ACTIVE
  && (startTime this <=? now)
  && notExpiredAt now this.


(** [alert.shouldRemindUser(lastReminderSent)]: [now] is the reading of
    the virtual, [now'] the one of [Date.now()]. *)
Definition shouldRemindUser (now now' : Date) (this : IAlert)
           (lastReminderSent : option Date) : bool :=
  if negb (isReminderEnabled this) || negb (isCurrentlyActive now this) then false
  else
    match lastReminderSent with
    | None => true
    | Some last =>
        let timeSinceLastReminder := now' - last in
        let reminderIntervalMs := reminderFrequencyMinutes this * 60 * 1000 in
        reminderIntervalMs <=? timeSinceLastReminder
    end.

(** The query of [findActive()] *)
Definition findActive (now : Date) (collection : list IAlert) : list IAlert :=
  filter (fun a =>
            isActive a && AlertStatus_eqb (status a) ACTIVE
            && (startTime a <=? now) && notExpiredAt now a)
         collection.

(** The visibility part of the query of [findForUser(userId, teamId)] *)
Definition visibleTo (userId : ObjectId) (teamId : option ObjectId) (a : IAlert) : bool :=
  VisibilityType_eqb (vis_type (visibility a)) ORGANIZATION
  || (VisibilityType_eqb (vis_type (visibility a)) USER
      && existsb (String.eqb userId) (targetIds (visibility a)))
  || match teamId with
     | Some teamId =>
         VisibilityType_eqb (vis_type (visibility a)) TEAM
         && existsb (String.eqb teamId) (targetIds (visibility a))
     | None => false
     end.

(** [findForUser(userId, teamId)] over a collection *)
Definition findForUser (now : Date) (userId : ObjectId) (teamId : option ObjectId)
           (collection : list IAlert) : list IAlert :=
  filter (fun a =>
            isActive a && AlertStatus_eqb (status a) ACTIVE
            && (startTime a <=? now) && notExpiredAt now a
            && visibleTo userId teamId a)
         collection.
End AlertModel.

(** ** The lifecycle service, continued (services/alerts/AlertService.ts) *)

Definition preferenceNotFound : JsError := mkError "Error" "Alert preference not found".

(** The three acknowledgment operations run on what
    [UserAlertPreference.findOne] found: the world is that document, or
    nothing.  [clock 0] is the reading of the state derivation, the last
    reading the one of the save. *)
Definition markAlertAsRead (clock : nat -> Date)
  : Async (option UserAlertPreference.Document) bool :=
  try_catch
    (fun found =>
       match found with
       | None => throw preferenceNotFound found
       | Some preference =>
           let p := AlertPreferenceStateContext.markAsRead
                      (clock 0%nat) (UserAlertPreference.mem preference) in
           let preference :=
             UserAlertPreference.save
               (clock 1%nat)
               (UserAlertPreference.mkDocument
                  p (UserAlertPreference.stored preference)) in
           (Some preference, Fulfilled true)
       end)
    (fun error => throw error).

(** [clock 1] is the reading of [Date.now()] in the state's [snooze]. *)
Definition snoozeAlert (clock : nat -> Date) (hours : Z)
  : Async (option UserAlertPreference.Document) bool :=
  try_catch
    (fun found =>
       match found with
       | None => throw preferenceNotFound found
       | Some preference =>
           let p := AlertPreferenceStateContext.snooze
                      (clock 0%nat) (clock 1%nat)
                      (UserAlertPreference.mem preference) hours in
           let preference :=
             UserAlertPreference.save
               (clock 2%nat)
               (UserAlertPreference.mkDocument
                  p (UserAlertPreference.stored preference)) in
           (Some preference, Fulfilled true)
       end)
    (fun error => throw error).

Definition unsnoozeAlert (clock : nat -> Date)
  : Async (option UserAlertPreference.Document) bool :=
  try_catch
    (fun found =>
       match found with
       | None => throw preferenceNotFound found
       | Some preference =>
           let p := AlertPreferenceStateContext.unsnooze
                      (clock 0%nat) (UserAlertPreference.mem preference) in
           let preference :=
             UserAlertPreference.save
               (clock 1%nat)
               (UserAlertPreference.mkDocument
                  p (UserAlertPreference.stored preference)) in
           (Some preference, Fulfilled true)
       end)
    (fun error => throw error).

(** One element of the result of [getAlertsForUser]. *)
Record AlertWithPreference := mkAlertWithPreference {
  entry_alert : IAlert;
  entry_preference : IUserAlertPreference;
  entry_state : string;
  entry_availableActions : list string
}.

(** The callback of [alerts.map] in [getAlertsForUser], on what
    [findOne] found for the user and the alert; it yields the document as
    it leaves it and the element of the result.  [clock 0] is the reading
    of the save of a new preference, [clock 1] and [clock 2] those of the
    automatic transitions, [clock 3] the one of the save that follows
    them, [clock 4] and [clock 5] those of the state name and of the
    available actions. *)
Definition alertWithPreference (clock : nat -> Date) (userId : ObjectId)
           (alert : IAlert) (found : option UserAlertPreference.Document)
  : UserAlertPreference.Document * AlertWithPreference :=
  let preference :=
    match found with
    | Some preference => preference
    | None =>
        let fresh := mkPreference userId (alert_id alert) false false None None 0 in
        UserAlertPreference.save
          (clock 0%nat) (UserAlertPreference.mkDocument fresh fresh)
    end in
  let (hasChanged, p) :=
    AlertPreferenceStateContext.processAutomaticTransitions
      (clock 1%nat) (clock 2%nat) (UserAlertPreference.mem preference) in
  let preference :=
    UserAlertPreference.mkDocument p (UserAlertPreference.stored preference) in
  let preference :=
    if hasChanged then UserAlertPreference.save (clock 3%nat) preference
    else preference in
  (preference,
   mkAlertWithPreference
     alert (UserAlertPreference.mem preference)
     (AlertPreferenceStateContext.getStateName
        (clock 4%nat) (UserAlertPreference.mem preference))
     (AlertPreferenceStateContext.getAvailableActions
        (clock 5%nat) (UserAlertPreference.mem preference))).

(** [Alert.findByIdAndUpdate(alertId, { status: ARCHIVED, isActive: false },
    { new: true })]: the first alert of that identity is updated in place
    and returned; no hook runs. *)
Fixpoint findByIdAndArchive (alertId : ObjectId) (collection : list IAlert)
  : list IAlert * option IAlert :=
  match collection with
  | [] => ([], None)
  | a :: rest =>
      if String.eqb (alert_id a) alertId then
        let a' :=
          mkAlert (alert_id a) (title a) (message a) (severity a)
                  (deliveryType a) (reminderFrequencyMinutes a) (startTime a)
                  (expiryTime a) false (isReminderEnabled a)
                  (visibility a) (createdBy a) ARCHIVED (_context a) in
        (a' :: rest, Some a')
      else
        let (rest', found) := findByIdAndArchive alertId rest in
        (a :: rest', found)
  end.

Definition archiveAlert (alertId : ObjectId) : Async Db (option IAlert) :=
  try_catch
    (fun db =>
       let (collection, alert) := findByIdAndArchive alertId (Alert db) in
       (mkDb (Team db) (User db) collection, Fulfilled alert))
    (fun error => throw error).

(** The query of [processReminders] for the alerts to sweep: [now] and
    [now'] are its two readings. *)
Definition reminderCandidate (now now' : Date) (a : IAlert) : bool :=
  isActive a
  && AlertStatus_eqb (status a) ACTIVE
  && isReminderEnabled a
  && (startTime a <=? now)
  && AlertModel.notExpiredAt now' a.

(** ** The dispatch strategy, continued *)

Definition getChannel (this : NotificationStrategy) (type : DeliveryType)
  : option INotificationChannel :=
  channels this type.

Definition isDeliveryTypeSupported (this : NotificationStrategy) (type : DeliveryType)
  : bool :=
  hasChannel this type.

(** The object [results] of [sendToMultipleChannels], keyed by delivery
    type. *)
Definition ChannelResults := DeliveryType -> option bool.

Definition set_result (results : ChannelResults) (type : DeliveryType) (v : bool)
  : ChannelResults :=
  fun type' => if DeliveryType_eqb type' type then Some v else results type'.

Definition sendToMultipleChannels (this : NotificationStrategy) (alert : IAlert)
           (user : IUser) (deliveryTypes : list DeliveryType)
  : Settled ChannelResults :=
  let promises :=
    map (fun deliveryType =>
           let* r := sendNotification this alert user deliveryType in
           fun results => (set_result results deliveryType r, Fulfilled tt))
        deliveryTypes in
  match (let* _ := promise_all promises in resolve tt) (fun _ => None) with
  | (results, Fulfilled _) => Fulfilled results
  | (_, Rejected e) => Rejected e
  end.

(** ** The notification observer (services/alerts/AlertObserver.ts) *)

(** [UserAlertPreference.findOne({ userId, alertId })] *)
Definition findOnePreference (user alert : ObjectId)
           (collection : list IUserAlertPreference) : option IUserAlertPreference :=
  find (fun p => String.eqb (userId p) user && String.eqb (alertId p) alert)
       collection.

(** [filterEligibleUsers]: the loop over [users], with [eligibleUsers] as
    accumulator; [clock k] is the reading of the virtual for the [k]-th
    user. *)
Fixpoint filterEligibleLoop (clock : nat -> Date) (alert : IAlert)
         (collection : list IUserAlertPreference) (k : nat)
         (users eligibleUsers : list IUser) : list IUser :=
  match users with
  | [] => eligibleUsers
  | user :: rest =>
      let preference := findOnePreference (user_id user) (alert_id alert) collection in
      let continue := filterEligibleLoop clock alert collection (S k) rest in
      if match preference with Some p => isRead p | None => false end
      then continue eligibleUsers
      else if match preference with
              | Some p => UserAlertPreference.isCurrentlySnoozed (clock k) p
              | None => false
              end
      then continue eligibleUsers
      else if negb (user_isActive user) then continue eligibleUsers
      else continue (eligibleUsers ++ [user])
  end.

Definition filterEligibleUsers (clock : nat -> Date) (alert : IAlert)
           (users : list IUser) : Async (list IUserAlertPreference) (list IUser) :=
  fun collection =>
    (collection, Fulfilled (filterEligibleLoop clock alert collection 0 users [])).

(** The callback of [users.map] in [createUserPreferences]; [now] is the
    reading of the save. *)
Definition createUserPreference (now : Date) (alert : IAlert) (user : IUser)
  : Async (list IUserAlertPreference) unit :=
  fun collection =>
    match findOnePreference (user_id user) (alert_id alert) collection with
    | Some _ => (collection, Fulfilled tt)
    | None =>
        let preference :=
          mkPreference (user_id user) (alert_id alert) false false None None 0 in
        (collection ++ [UserAlertPreference.preSave now preference], Fulfilled tt)
    end.

Fixpoint createUserPreferencePromises (clock : nat -> Date) (alert : IAlert)
         (k : nat) (users : list IUser)
  : list (Async (list IUserAlertPreference) unit) :=
  match users with
  | [] => []
  | user :: rest =>
      createUserPreference (clock k) alert user
      :: createUserPreferencePromises clock alert (S k) rest
  end.

Definition createUserPreferences (clock : nat -> Date) (alert : IAlert)
           (users : list IUser) : Async (list IUserAlertPreference) unit :=
  let preferencePromises := createUserPreferencePromises clock alert 0 users in
  let* _ := promise_all preferencePromises in
  resolve tt.

(** ** The reminder scheduler (services/scheduler/ReminderScheduler.ts) *)

(** The decimal text of an integer, as a template literal prints it. *)
Definition string_of_Z (z : Z) : string := NilZero.string_of_int (Z.to_int z).

Module ReminderScheduler.
(** What the scheduler holds of a task of the cron library. *)
Record ScheduledTask := mkTask {
  task_schedule : string;
  task_started : bool
}.

Record t := mkScheduler {
  isRunning : bool;
  task : option ScheduledTask
}.

(** The fields as the class initializes them. *)
Definition new : t := mkScheduler false None.

Definition getCronSchedule (minutes : Z) : string :=
  if minutes <? 60 then "*/" ++ string_of_Z minutes ++ " * * * *"
  else if minutes =? 60 then "0 * * * *"
  else if minutes =? 120 then "0 */2 * * *"
  else if minutes =? 180 then "0 */3 * * *"
  else if minutes =? 240 then "0 */4 * * *"
  else if minutes =? 360 then "0 */6 * * *"
  else if minutes =? 720 then "0 */12 * * *"
  else if minutes =? 1440 then "0 0 * * *"
  else
    let hours := minutes / 60 in
    let remainingMinutes := Z.rem minutes 60 in
    if (remainingMinutes =? 0) && (hours <=? 23)
    then "0 */" ++ string_of_Z hours ++ " * * *"
    else
      let interval := Z.max 30 (Z.min minutes 60) in
      "*/" ++ string_of_Z interval ++ " * * * *".

(** [start()], with the configured interval *)
Definition start (reminderIntervalMinutes : Z) (this : t) : t :=
  if isRunning this then this
  else
    let cronSchedule := getCronSchedule reminderIntervalMinutes in
    mkScheduler true (Some (mkTask cronSchedule true)).

(** [stop()] *)
Definition stop (this : t) : t :=
  if negb (isRunning this) || match task this with None => true | Some _ => false end
  then this
  else mkScheduler false None.

(** [setCustomSchedule(cronSchedule)], with the verdict of the cron
    library's [validate]. *)
Definition setCustomSchedule (validate : string -> bool) (cronSchedule : string)
           (this : t) : t * Settled unit :=
  if negb (validate cronSchedule)
  then (this, Rejected (mkError "Error" ("Invalid cron schedule: " ++ cronSchedule)))
  else
    let this := stop this in
    (mkScheduler true (Some (mkTask cronSchedule true)), Fulfilled tt).

(** A scheduler runs exactly when it holds a task. *)
Definition consistent (this : t) : Prop :=
  isRunning this = true <-> task this <> None.
End ReminderScheduler.

(** ** Auxiliary definitions *)

(** The users of [l] whose identity is not in [seen] and not borne by an
    earlier user of [l]. *)
Fixpoint firstOccurrences (seen : list ObjectId) (l : list IUser) : list IUser :=
  match l with
  | [] => []
  | u :: rest =>
      if existsb (String.eqb (user_id u)) seen
      then firstOccurrences (seen ++ [user_id u]) rest
      else u :: firstOccurrences (seen ++ [user_id u]) rest
  end.

(** The users a scope names, before duplicates are removed. *)
Definition scopeMatches (a : IAlert) (u : IUser) : bool :=
  match vis_type (visibility a) with
  | ORGANIZATION => true
  | TEAM =>
      match user_teamId u with
      | Some t => existsb (String.eqb t) (targetIds (visibility a))
      | None => false
      end
  | USER => existsb (String.eqb (user_id u)) (targetIds (visibility a))
  end.

(** A user is eligible for the fan-out of an alert. *)
Definition eligible (now : Date) (alert : IAlert)
           (collection : list IUserAlertPreference) (user : IUser) : bool :=
  user_isActive user
  && match findOnePreference (user_id user) (alert_id alert) collection with
     | None => true
     | Some p => negb (isRead p) && negb (UserAlertPreference.isCurrentlySnoozed now p)
     end.

Module Fixture.
Definition snoozedUnread : IUserAlertPreference :=
  mkPreference "u1" "a1" false true (Some 500) (Some 40) 3.
Definition frozen (now : Date) (k : nat) : Date := now.
Definition ticking (k : nat) : Date := 100 + Z.of_nat k.
Definition teamAlert : IAlert :=
  mkAlert "a2" "Deploy" "Deployment at noon" INFO EMAIL 60 0 (Some 1000)
          true true (mkVisibility TEAM [Sample.teamId]) "u0" ACTIVE None.
Definition request : CreateAlertRequest :=
  mkCreateAlertRequest "Deploy" "Deployment at noon" INFO IN_APP
                       None None None None (mkVisibility ORGANIZATION []).
End Fixture.

(** * Properties *)

(** ** The preference state machine *)

Lemma readState_neq_unreadState :
  AlertPreferenceStateContext.readState <> AlertPreferenceStateContext.unreadState.
Proof.
  intro H.
  assert (E : IAlertState.markAsRead AlertPreferenceStateContext.readState Sample.fresh
              = IAlertState.markAsRead AlertPreferenceStateContext.unreadState Sample.fresh)
    by (rewrite H; reflexivity).
  discriminate E.
Qed.

Lemma readState_neq_snoozedState :
  AlertPreferenceStateContext.readState <> AlertPreferenceStateContext.snoozedState.
Proof.
  intro H.
  assert (E : IAlertState.markAsRead AlertPreferenceStateContext.readState Sample.fresh
              = IAlertState.markAsRead AlertPreferenceStateContext.snoozedState Sample.fresh)
    by (rewrite H; reflexivity).
  discriminate E.
Qed.

Lemma snoozedState_neq_unreadState :
  AlertPreferenceStateContext.snoozedState <> AlertPreferenceStateContext.unreadState.
Proof.
  intro H.
  assert (E : IAlertState.snooze AlertPreferenceStateContext.snoozedState 0 Sample.fresh 1
              = IAlertState.snooze AlertPreferenceStateContext.unreadState 0 Sample.fresh 1)
    by (rewrite H; reflexivity).
  discriminate E.
Qed.

Lemma date_after_iff (d : option Date) (now : Date) :
  date_after d now = true <-> exists u, d = Some u /\ now < u.
Proof.
  destruct d as [u|]; simpl.
  - rewrite Z.ltb_lt. split.
    + intro H. exists u. split; [reflexivity | exact H].
    + intros [v [E H]]. injection E as ->. exact H.
  - split; [discriminate | intros [v [E _]]; discriminate E].
Qed.


(** The derivation of the context agrees with the one of the model's
    virtual. *)
Lemma isCurrentlySnoozed_virtual (now : Date) (p : IUserAlertPreference) :
  AlertPreferenceStateContext.isCurrentlySnoozed now p
  = UserAlertPreference.isCurrentlySnoozed now p.
Proof. reflexivity. Qed.

Lemma getStateName_derivedState (now : Date) (p : IUserAlertPreference) :
  AlertPreferenceStateContext.getStateName now p = derivedState now p.
Proof.
  unfold AlertPreferenceStateContext.getStateName, derivedState,
    AlertPreferenceStateContext.isCurrentlySnoozed.
  destruct (isRead p); [reflexivity|].
  destruct (isSnoozed p); reflexivity.
Qed.

Lemma getCurrentState_derivedState (now : Date) (p : IUserAlertPreference) :
  AlertPreferenceStateContext.getCurrentState now p = stateNamed (derivedState now p).
Proof.
  unfold AlertPreferenceStateContext.getCurrentState, derivedState,
    AlertPreferenceStateContext.isCurrentlySnoozed.
  destruct (isRead p); [reflexivity|].
  destruct (isSnoozed p); simpl; [|reflexivity].
  destruct (date_after (snoozedUntil p) now); reflexivity.
Qed.

(** C2: the derived logical state is READ when [isRead] holds, otherwise
    SNOOZED when [isSnoozed] holds and [snoozedUntil] is set and strictly in
    the future, otherwise UNREAD; [getStateName] and [getCurrentState] agree
    on it, and a preference flagged snoozed whose [snoozedUntil] has elapsed
    derives UNREAD. *)
Theorem C2_derived_state :
  forall (now : Date) (p : IUserAlertPreference),
    AlertPreferenceStateContext.getStateName now p = derivedState now p
    /\ AlertPreferenceStateContext.getCurrentState now p
       = stateNamed (AlertPreferenceStateContext.getStateName now p)
    /\ (AlertPreferenceStateContext.getStateName now p = "READ"
        <-> isRead p = true)
    /\ (AlertPreferenceStateContext.getStateName now p = "SNOOZED"
        <-> isRead p = false /\ isSnoozed p = true
            /\ exists u, snoozedUntil p = Some u /\ now < u)
    /\ (AlertPreferenceStateContext.getStateName now p = "UNREAD"
        <-> isRead p = false
            /\ ~ (isSnoozed p = true /\ exists u, snoozedUntil p = Some u /\ now < u))
    /\ (forall u, isRead p = false -> isSnoozed p = true ->
                  snoozedUntil p = Some u -> u <= now ->
                  AlertPreferenceStateContext.getStateName now p = "UNREAD"
                  /\ AlertPreferenceStateContext.getCurrentState now p
                     = AlertPreferenceStateContext.unreadState).
Proof.
  intros now p.
  rewrite getCurrentState_derivedState, getStateName_derivedState.
  split; [reflexivity|]. split; [reflexivity|].
  unfold derivedState.
  pose proof (date_after_iff (snoozedUntil p) now) as Hd.
  destruct (isRead p) eqn:Er; [|destruct (isSnoozed p) eqn:Es; simpl;
                                [destruct (date_after (snoozedUntil p) now) eqn:Ea|]].
  all: repeat split; intros; try reflexivity; try discriminate.
  all: try solve [intuition (try discriminate; try congruence)].
  all: try solve [apply Hd; reflexivity].
  all: try solve [match goal with
                  | H : snoozedUntil _ = Some _ |- _ =>
                      rewrite H in Ea; simpl in Ea; apply Z.ltb_lt in Ea; lia
                  end].
Qed.

Lemma SnoozedState_canReceiveReminder_elapsed (now u : Date) (p : IUserAlertPreference) :
  snoozedUntil p = Some u -> u <= now ->
  SnoozedState.canReceiveReminder now p = (true, SnoozedState.unsnooze p).
Proof.
  intros E H. unfold SnoozedState.canReceiveReminder. rewrite E.
  apply Z.leb_le in H. rewrite H. reflexivity.
Qed.

(** The reminder query of the context, in closed form. *)
Lemma canReceiveReminder_context (now now' : Date) (p : IUserAlertPreference) :
  AlertPreferenceStateContext.canReceiveReminder now now' p
  = (negb (isRead p) && negb (AlertPreferenceStateContext.isCurrentlySnoozed now' p),
     if negb (isRead p)
        && AlertPreferenceStateContext.isCurrentlySnoozed now p
        && negb (AlertPreferenceStateContext.isCurrentlySnoozed now' p)
     then SnoozedState.unsnooze p
     else p).
Proof.
  unfold AlertPreferenceStateContext.canReceiveReminder,
    AlertPreferenceStateContext.getCurrentState,
    AlertPreferenceStateContext.isCurrentlySnoozed.
  destruct (isRead p) eqn:Er; [reflexivity|].
  destruct (isSnoozed p) eqn:Es;
    [destruct (snoozedUntil p) as [u|] eqn:Eu;
     [destruct (now <? u) eqn:E1|]|];
    simpl; rewrite ?E1; simpl;
    unfold SnoozedState.canReceiveReminder, UnreadState.canReceiveReminder;
    rewrite ?Es, ?Eu; simpl; try reflexivity.
  destruct (Z.leb_spec u now'); destruct (Z.ltb_spec now' u);
    try lia; reflexivity.
Qed.

(** C1 (the claim as stated fails): an unread preference flagged snoozed
    until 5 is asked at time 10; the query answers true but both snooze
    fields stay as they were. *)
Lemma C1_counterexample : ~ reminder_clears_elapsed_snooze 10 Sample.stale.
Proof.
  unfold reminder_clears_elapsed_snooze. intro H.
  destruct H as [_ [H _]]; try reflexivity.
  - exists 5. split; [reflexivity | lia].
  - discriminate H.
Qed.

(** C1 (amended): the reminder query of the context answers true exactly
    when the preference is not read and not within an active snooze window
    at the time [now'] of the check.  It clears the snooze fields only on
    the path through [SnoozedState]: when the snooze was still active at the
    time [now] the state was derived and has elapsed at [now']; otherwise
    (a read preference, or one whose snooze had already elapsed when the
    state was derived, or a single clock reading) the preference is left as
    it was.  [SnoozedState.canReceiveReminder] itself, given an elapsed
    [snoozedUntil], answers true and clears both fields. *)
Theorem C1_canReceiveReminder :
  forall (now now' : Date) (p : IUserAlertPreference),
    fst (AlertPreferenceStateContext.canReceiveReminder now now' p)
    = negb (isRead p) && negb (AlertPreferenceStateContext.isCurrentlySnoozed now' p)
    /\ snd (AlertPreferenceStateContext.canReceiveReminder now now' p)
       = (if negb (isRead p)
             && AlertPreferenceStateContext.isCurrentlySnoozed now p
             && negb (AlertPreferenceStateContext.isCurrentlySnoozed now' p)
          then SnoozedState.unsnooze p
          else p)
    /\ snd (AlertPreferenceStateContext.canReceiveReminder now now p) = p
    /\ (isRead p = true ->
        AlertPreferenceStateContext.canReceiveReminder now now' p = (false, p))
    /\ (forall u, snoozedUntil p = Some u -> u <= now ->
                  SnoozedState.canReceiveReminder now p
                  = (true, SnoozedState.unsnooze p)
                  /\ isSnoozed (SnoozedState.unsnooze p) = false
                  /\ snoozedUntil (SnoozedState.unsnooze p) = None).
Proof.
  intros now now' p.
  split; [|split; [|split; [|split]]].
  - rewrite canReceiveReminder_context. reflexivity.
  - rewrite canReceiveReminder_context. reflexivity.
  - rewrite canReceiveReminder_context. simpl.
    destruct (negb (isRead p)); simpl; [|reflexivity].
    destruct (AlertPreferenceStateContext.isCurrentlySnoozed now p); reflexivity.
  - intro Er. rewrite canReceiveReminder_context. rewrite Er. reflexivity.
  - intros u E H.
    rewrite (SnoozedState_canReceiveReminder_elapsed now u p E H).
    repeat split; reflexivity.
Qed.

Lemma unsnooze_any_state (now : Date) (p : IUserAlertPreference) :
  AlertPreferenceStateContext.unsnooze now p
  = set_snoozedUntil None (set_isSnoozed false p).
Proof.
  unfold AlertPreferenceStateContext.unsnooze,
    AlertPreferenceStateContext.getCurrentState.
  destruct (isRead p); [reflexivity|].
  destruct (isSnoozed p && _); reflexivity.
Qed.

(** C7 (the claim as stated fails): the unread preference whose snooze
    elapsed at 5 derives UNREAD at time 10, yet [unsnooze] is offered. *)
Lemma C7_counterexample : ~ actions_as_specified 10 Sample.stale.
Proof.
  unfold actions_as_specified. intros [H _].
  specialize (H eq_refl "unsnooze").
  destruct H as [H _].
  assert (Hin : In "unsnooze" ["markAsRead"; "snooze"]).
  { apply H. vm_compute. right. right. left. reflexivity. }
  simpl in Hin. destruct Hin as [E | [E | []]]; discriminate E.
Qed.

(** C7 (amended): [markAsRead] is offered unless the preference is read,
    [snooze] unless it is read or within an active snooze window, and
    [unsnooze] whenever the stored flag [isSnoozed] is set.  So UNREAD
    offers markAsRead and snooze, plus unsnooze when the flag is still
    stored; SNOOZED offers markAsRead and unsnooze; READ offers nothing, or
    unsnooze alone when the flag is still stored. *)
Theorem C7_available_actions :
  forall (now : Date) (p : IUserAlertPreference),
    let actions := AlertPreferenceStateContext.getAvailableActions now p in
    let state := AlertPreferenceStateContext.getStateName now p in
    (state = "UNREAD" ->
     actions = ["markAsRead"; "snooze"]
               ++ (if isSnoozed p then ["unsnooze"] else []))
    /\ (state = "SNOOZED" -> actions = ["markAsRead"; "unsnooze"])
    /\ (state = "READ" -> actions = if isSnoozed p then ["unsnooze"] else []).
Proof.
  intros now p.
  unfold AlertPreferenceStateContext.getAvailableActions,
    AlertPreferenceStateContext.getStateName,
    AlertPreferenceStateContext.isCurrentlySnoozed.
  destruct (isRead p); destruct (isSnoozed p);
    destruct (date_after (snoozedUntil p) now); simpl;
    repeat split; intros; try reflexivity; try discriminate.
Qed.

(** A read preference whose snooze flag is still stored is offered
    [unsnooze] alone. *)
Example actions_of_read_flagged :
  AlertPreferenceStateContext.getStateName 10 Sample.readFlagged = "READ"
  /\ AlertPreferenceStateContext.getAvailableActions 10 Sample.readFlagged
     = ["unsnooze"].
Proof. split; reflexivity. Qed.

(** Where the automatic transitions have run first, as in
    [getAlertsForUser], an unread preference is offered the two actions of
    its derived state and nothing else. *)
Lemma actions_after_automatic_transitions (now : Date) (p : IUserAlertPreference) :
  isRead p = false ->
  let p' := snd (AlertPreferenceStateContext.processAutomaticTransitions now now p) in
  AlertPreferenceStateContext.getAvailableActions now p'
  = if AlertPreferenceStateContext.isCurrentlySnoozed now p
    then ["markAsRead"; "unsnooze"]
    else ["markAsRead"; "snooze"].
Proof.
  intro Er. unfold AlertPreferenceStateContext.processAutomaticTransitions.
  destruct (isSnoozed p) eqn:Es; cbn [andb].
  - destruct (AlertPreferenceStateContext.isCurrentlySnoozed now p) eqn:Ec;
      cbn [negb snd].
    + unfold AlertPreferenceStateContext.getAvailableActions.
      rewrite Er, Es, Ec. reflexivity.
    + rewrite unsnooze_any_state.
      unfold AlertPreferenceStateContext.getAvailableActions,
        AlertPreferenceStateContext.isCurrentlySnoozed.
      cbn. rewrite Er. reflexivity.
  - cbn [snd]. unfold AlertPreferenceStateContext.getAvailableActions,
      AlertPreferenceStateContext.isCurrentlySnoozed.
    rewrite Er, Es. reflexivity.
Qed.

(** C8: snoozing through the context a preference whose derived state is
    READ changes no field: the preference stays read, a clear snooze flag
    stays clear and an unset [snoozedUntil] stays unset, whatever the
    hours. *)
Theorem C8_snooze_read_noop :
  forall (now now' : Date) (hours : Z) (p : IUserAlertPreference),
    AlertPreferenceStateContext.getStateName now p = "READ" ->
    AlertPreferenceStateContext.snooze now now' p hours = p
    /\ isRead (AlertPreferenceStateContext.snooze now now' p hours) = true
    /\ (isSnoozed p = false ->
        isSnoozed (AlertPreferenceStateContext.snooze now now' p hours) = false)
    /\ (snoozedUntil p = None ->
        snoozedUntil (AlertPreferenceStateContext.snooze now now' p hours) = None).
Proof.
  intros now now' hours p H.
  assert (Er : isRead p = true).
  { revert H. unfold AlertPreferenceStateContext.getStateName.
    destruct (isRead p); [reflexivity|].
    destruct (isSnoozed p && _); discriminate. }
  assert (E : AlertPreferenceStateContext.snooze now now' p hours = p).
  { unfold AlertPreferenceStateContext.snooze,
      AlertPreferenceStateContext.getCurrentState.
    rewrite Er. reflexivity. }
  rewrite E. repeat split; auto.
Qed.

Lemma C8_snooze_read_noop_witness :
  AlertPreferenceStateContext.snooze 10 11 Sample.read 24 = Sample.read
  /\ isRead (AlertPreferenceStateContext.snooze 10 11 Sample.read 24) = true
  /\ (isSnoozed Sample.read = false ->
      isSnoozed (AlertPreferenceStateContext.snooze 10 11 Sample.read 24) = false)
  /\ (snoozedUntil Sample.read = None ->
      snoozedUntil (AlertPreferenceStateContext.snooze 10 11 Sample.read 24) = None).
Proof.
  apply (C8_snooze_read_noop 10 11 24 Sample.read). reflexivity.
Defined.

(** C9: in every derived state, unsnoozing through the context clears
    [snoozedUntil] and [isSnoozed], keeps [isRead] and the other fields,
    and a second unsnooze (at any later reading) changes nothing more. *)
Theorem C9_unsnooze_idempotent :
  forall (now now2 : Date) (p : IUserAlertPreference),
    let p' := AlertPreferenceStateContext.unsnooze now p in
    snoozedUntil p' = None
    /\ isSnoozed p' = false
    /\ isRead p' = isRead p
    /\ userId p' = userId p /\ alertId p' = alertId p
    /\ lastReminderSent p' = lastReminderSent p
    /\ reminderCount p' = reminderCount p
    /\ AlertPreferenceStateContext.unsnooze now2 p' = p'
    /\ IAlertState.unsnooze AlertPreferenceStateContext.unreadState p = p'
    /\ IAlertState.unsnooze AlertPreferenceStateContext.readState p = p'
    /\ IAlertState.unsnooze AlertPreferenceStateContext.snoozedState p = p'.
Proof.
  intros now now2 p p'. subst p'.
  rewrite !unsnooze_any_state.
  repeat split; reflexivity.
Qed.

Lemma preSave_normalized (now : Date) (p : IUserAlertPreference) :
  snooze_normalized now (UserAlertPreference.preSave now p).
Proof.
  unfold snooze_normalized, UserAlertPreference.preSave.
  destruct (isSnoozed p) eqn:Es; simpl.
  2: { rewrite Es. simpl. intros u E; discriminate E. }
  destruct (snoozedUntil p) as [v|] eqn:Ev; simpl.
  2: { rewrite Es. simpl. rewrite Ev. intros u E; discriminate E. }
  destruct (v <=? now) eqn:El; simpl.
  - intros u E; discriminate E.
  - rewrite Es. simpl. rewrite Ev. intros u E. injection E as <-.
    apply Z.leb_gt in El. split; [exact Es | exact El].
Qed.

(** C10: the pre-save hook clears both snooze fields of a preference
    flagged snoozed whose [snoozedUntil] has elapsed; after the hook a
    clear flag comes with an unset [snoozedUntil]; a [snoozedUntil] that
    survives the hook is the stored one, is backed by the flag and lies
    strictly after the time of saving; the hook touches no other field; and
    what [save] writes is the output of the hook. *)
Theorem C10_preSave_normalizes :
  forall (now : Date) (p : IUserAlertPreference),
    let p' := UserAlertPreference.preSave now p in
    (forall u, isSnoozed p = true -> snoozedUntil p = Some u -> u <= now ->
               isSnoozed p' = false /\ snoozedUntil p' = None)
    /\ (isSnoozed p' = false -> snoozedUntil p' = None)
    /\ (forall u, snoozedUntil p' = Some u ->
                  isSnoozed p' = true /\ now < u
                  /\ isSnoozed p = true /\ snoozedUntil p = Some u)
    /\ (isRead p' = isRead p /\ userId p' = userId p /\ alertId p' = alertId p
        /\ lastReminderSent p' = lastReminderSent p
        /\ reminderCount p' = reminderCount p)
    /\ (forall doc, UserAlertPreference.mem doc = p ->
                    UserAlertPreference.stored (UserAlertPreference.save now doc) = p'
                    /\ UserAlertPreference.mem (UserAlertPreference.save now doc) = p'
                    /\ snooze_normalized
                         now (UserAlertPreference.stored
                                (UserAlertPreference.save now doc))).
Proof.
  intros now p p'. subst p'.
  split; [|split; [|split; [|split]]].
  - intros u Es Eu Hu. unfold UserAlertPreference.preSave.
    rewrite Es, Eu. simpl. apply Z.leb_le in Hu. rewrite Hu. simpl.
    split; reflexivity.
  - unfold UserAlertPreference.preSave.
    destruct (isSnoozed p && date_not_after (snoozedUntil p) now); simpl.
    + reflexivity.
    + destruct (isSnoozed p) eqn:Es; simpl; intro E.
      * rewrite Es in E. discriminate E.
      * reflexivity.
  - intros u E.
    destruct (preSave_normalized now p u E) as [Hs Hlt].
    split; [exact Hs|]. split; [exact Hlt|].
    revert E Hs. unfold UserAlertPreference.preSave.
    destruct (isSnoozed p && date_not_after (snoozedUntil p) now); simpl.
    + discriminate.
    + destruct (isSnoozed p); simpl; [auto | discriminate].
  - unfold UserAlertPreference.preSave.
    destruct (isSnoozed p && date_not_after (snoozedUntil p) now); simpl;
      [|destruct (isSnoozed p); simpl]; repeat split; reflexivity.
  - intros doc E. unfold UserAlertPreference.save. simpl. rewrite E.
    split; [reflexivity|]. split; [reflexivity|]. apply preSave_normalized.
Qed.

(** ** Event fan-out *)

Section FanOut.
Context {W : Type}.
Variables (alert : IAlert) (users : list IUser).

(** What the callback of [observers.map] does with one observer: its
    update runs, and the callback fulfils whatever the update did. *)
Lemma observer_callback_run (observer : IAlertObserver W) (w : W) :
  try_catch (let* _ := update observer alert users in resolve tt)
            (fun _ => resolve tt) w
  = (fst (update observer alert users w), Fulfilled tt).
Proof.
  unfold try_catch, await, resolve.
  destruct (update observer alert users w) as [w' [[]|e]]; reflexivity.
Qed.

Lemma observer_callbacks_run (l : list (IAlertObserver W)) (w : W) :
  promise_all
    (map (fun observer =>
            try_catch (let* _ := update observer alert users in resolve tt)
                      (fun _ => resolve tt)) l) w
  = (fold_left (fun w observer => fst (update observer alert users w)) l w,
     Fulfilled (map (fun _ => tt) l)).
Proof.
  revert w. induction l as [|observer l IH]; intro w.
  - reflexivity.
  - cbn [map promise_all fold_left].
    rewrite observer_callback_run, IH. reflexivity.
Qed.

Lemma notifyObservers_run (this : AlertSubject W) (w : W) :
  notifyObservers this alert users w
  = (fold_left (fun w observer => fst (update observer alert users w))
               (observers this) w,
     Fulfilled tt).
Proof.
  unfold notifyObservers.
  destruct (observers this) as [|observer l] eqn:E.
  - reflexivity.
  - cbn [length Nat.eqb]. rewrite <- E.
    unfold try_catch at 1. unfold await at 1.
    rewrite observer_callbacks_run. reflexivity.
Qed.
End FanOut.

(** C3: the fan-out runs the update of every registered subscriber, each
    on the world its predecessors left, whether or not any of them throws,
    and the call itself always fulfils with no value; the same holds for the
    fan-out with context, on the alert carrying the context. *)
Theorem C3_fanout_isolated :
  forall (W : Type) (this : AlertSubject W) (alert : IAlert) (users : list IUser)
         (action : AlertAction) (w : W),
    notifyObservers this alert users w
    = (fold_left (fun w observer => fst (update observer alert users w))
                 (observers this) w,
       Fulfilled tt)
    /\ notifyObserversWithContext this alert users action w
       = (fold_left (fun w observer =>
                       fst (update observer (alertWithContext alert action) users w))
                    (observers this) w,
          Fulfilled tt).
Proof.
  intros W this alert users action w. split.
  - apply notifyObservers_run.
  - unfold notifyObserversWithContext, await.
    rewrite notifyObservers_run. reflexivity.
Qed.

(** Three subscribers that write their name to a journal; the second throws
    after writing, the third returns a rejected promise: all three have
    run, and the fan-out fulfils. *)
Example fanout_with_failing_subscribers :
  let journal (name : string) (r : Settled unit) : IAlertObserver (list string) :=
    mkObserver (fun _ _ w => (w ++ [name], r)) in
  notifyObserversWithContext
    (mkSubject [journal "notification" (Fulfilled tt);
                journal "analytics" (Rejected (mkError "Error" "boom"));
                journal "audit" (Rejected (mkError "TypeError" "undefined"))])
    Sample.alert [Sample.alice; Sample.bob] created []
  = (["notification"; "analytics"; "audit"], Fulfilled tt).
Proof. reflexivity. Qed.

(** ** Bulk dispatch *)

Lemma sendNotification_run {W : Type} (this : NotificationStrategy) (alert : IAlert)
      (user : IUser) (type : DeliveryType) (w : W) :
  sendNotification this alert user type w
  = (w, Fulfilled (sendSucceeds this alert user type)).
Proof.
  unfold sendNotification, sendSucceeds, sendFails.
  destruct (channels this type) as [channel|]; [|reflexivity].
  unfold try_catch, await, resolve.
  destruct (send channel alert user) as [[|]|e]; reflexivity.
Qed.

Lemma filter_length_Permutation {A} (f : A -> bool) (l l' : list A) :
  Permutation l l' -> length (filter f l) = length (filter f l').
Proof.
  induction 1 as [|x l l' _ IH|x y l|l l' l'' _ IH1 _ IH2]; simpl.
  - reflexivity.
  - destruct (f x); simpl; congruence.
  - destruct (f x); destruct (f y); reflexivity.
  - congruence.
Qed.

Lemma filter_negb_length {A} (f : A -> bool) (l : list A) :
  (length (filter f l) + length (filter (fun x => negb (f x)) l) = length l)%nat.
Proof.
  induction l as [|x l IH]; simpl; [reflexivity|].
  destruct (f x); simpl; lia.
Qed.

Section BulkProofs.
Variable settled : list IUser -> list IUser.
Hypothesis settled_Permutation : forall l, Permutation (settled l) l.
Variables (this : NotificationStrategy) (alert : IAlert) (type : DeliveryType).

Let ok (user : IUser) : bool := sendSucceeds this alert user type.
Let outcome (user : IUser) : IUser * bool := (user, ok user).

Lemma batchCallback_run (user : IUser) (acc : BulkResult) :
  batchCallback this alert type user acc
  = (mkBulkResult (successful acc + (if ok user then 1 else 0))
                  (failed acc + (if ok user then 0 else 1))
                  (results acc ++ [outcome user]),
     Fulfilled (outcome user)).
Proof.
  unfold batchCallback, await. rewrite sendNotification_run.
  unfold outcome, ok. destruct (sendSucceeds this alert user type); simpl;
    rewrite ?Z.add_0_r; reflexivity.
Qed.

Lemma batch_run (l : list IUser) (acc : BulkResult) :
  promise_all (map (batchCallback this alert type) l) acc
  = (mkBulkResult
       (successful acc + Z.of_nat (length (filter ok l)))
       (failed acc + Z.of_nat (length (filter (fun u => negb (ok u)) l)))
       (results acc ++ map outcome l),
     Fulfilled (map outcome l)).
Proof.
  revert acc. induction l as [|user l IH]; intro acc.
  - cbn. rewrite !Z.add_0_r, app_nil_r. destruct acc; reflexivity.
  - cbn [map promise_all]. rewrite batchCallback_run, IH.
    cbn [successful failed results filter].
    rewrite <- app_assoc. cbn [app].
    destruct (ok user); cbn [negb length]; f_equal; f_equal; lia.
Qed.

Lemma batchLoop_run (users : list IUser) :
  forall (fuel i : nat) (acc : BulkResult),
    (length users - i <= fuel)%nat ->
    exists r,
      batchLoop settled fuel this alert users type i acc = (r, Fulfilled tt)
      /\ successful r
         = successful acc + Z.of_nat (length (filter ok (skipn i users)))
      /\ failed r
         = failed acc
           + Z.of_nat (length (filter (fun u => negb (ok u)) (skipn i users)))
      /\ Permutation (results r) (results acc ++ map outcome (skipn i users)).
Proof.
  induction fuel as [|fuel IH]; intros i acc Hfuel.
  - exists acc. rewrite skipn_all2 by lia. cbn.
    rewrite !Z.add_0_r, app_nil_r. repeat split; reflexivity.
  - cbn [batchLoop]. destruct (i <? length users)%nat eqn:Hi.
    + apply Nat.ltb_lt in Hi.
      unfold await at 1. rewrite batch_run.
      set (batch := slice i (i + batchSize) users).
      set (acc' := mkBulkResult _ _ _).
      destruct (IH (i + batchSize)%nat acc') as [r [Hr [Hs [Hf Hp]]]].
      { unfold batchSize. lia. }
      exists r. split; [exact Hr|].
      assert (Hsplit : skipn i users = batch ++ skipn (i + batchSize) users).
      { subst batch. unfold slice, batchSize.
        replace (i + 10 - i)%nat with 10%nat by lia.
        replace (i + 10)%nat with (10 + i)%nat by lia.
        rewrite <- skipn_skipn. symmetry. apply firstn_skipn. }
      rewrite Hs, Hf, Hsplit. subst acc'. cbn [successful failed results] in *.
      rewrite !filter_app, !length_app, !Nat2Z.inj_add.
      rewrite (filter_length_Permutation ok _ _ (settled_Permutation batch)).
      rewrite (filter_length_Permutation (fun u => negb (ok u)) _ _
                                         (settled_Permutation batch)).
      split; [lia|]. split; [lia|].
      eapply Permutation_trans; [exact Hp|].
      rewrite map_app, <- !app_assoc.
      apply Permutation_app_head, Permutation_app_tail, Permutation_map.
      apply settled_Permutation.
    + apply Nat.ltb_ge in Hi. exists acc. rewrite skipn_all2 by lia. cbn.
      rewrite !Z.add_0_r, app_nil_r. repeat split; reflexivity.
Qed.
End BulkProofs.

(** C4: with a channel registered for the delivery type whose send fails
    (returns false or throws) for exactly [K] of the [N] recipients, bulk
    dispatch returns normally, in whatever order the sends of a batch
    settle, with [successful = N - K], [failed = K] and an outcome list of
    [N] entries that holds, for each recipient, the outcome of its own
    send. *)
Theorem C4_bulk_dispatch_counts :
  forall (settled : list IUser -> list IUser)
         (this : NotificationStrategy) (alert : IAlert) (users : list IUser)
         (type : DeliveryType) (channel : INotificationChannel) (K : nat),
    (forall l, Permutation (settled l) l) ->
    channels this type = Some channel ->
    length (filter (sendFails channel alert) users) = K ->
    exists r,
      sendBulkNotifications settled this alert users type = Fulfilled r
      /\ successful r = Z.of_nat (length users - K)
      /\ failed r = Z.of_nat K
      /\ length (results r) = length users
      /\ Permutation (results r)
                     (map (fun u => (u, negb (sendFails channel alert u))) users).
Proof.
  intros settled this alert users type channel K Hperm Hch HK.
  destruct (batchLoop_run settled Hperm this alert type users
                          (length users) 0 (mkBulkResult 0 0 []))
    as [r [Hr [Hs [Hf Hp]]]]; [lia|].
  exists r. unfold sendBulkNotifications. rewrite Hr.
  cbn [skipn successful failed results app] in Hs, Hf, Hp.
  assert (Hok : forall u, sendSucceeds this alert u type
                          = negb (sendFails channel alert u)).
  { intro u. unfold sendSucceeds. rewrite Hch. reflexivity. }
  assert (Hfail : length (filter (fun u => negb (sendSucceeds this alert u type)) users)
                  = K).
  { rewrite <- HK. f_equal. apply filter_ext. intro u. rewrite Hok.
    apply negb_involutive. }
  pose proof (filter_negb_length (fun u => sendSucceeds this alert u type) users)
    as Hsum.
  split; [reflexivity|]. split; [rewrite Hs; lia|]. split; [rewrite Hf; lia|].
  assert (Hp' : Permutation (results r)
                  (map (fun u => (u, negb (sendFails channel alert u))) users)).
  { eapply Permutation_trans; [exact Hp|]. apply Permutation_refl'.
    apply map_ext. intro u. rewrite Hok. reflexivity. }
  split; [|exact Hp'].
  rewrite (Permutation_length Hp'). apply length_map.
Qed.

Lemma C4_bulk_dispatch_counts_witness :
  exists r,
    sendBulkNotifications (@rev IUser) Sample.strategy Sample.alert
                          [Sample.alice; Sample.bob; Sample.carol] IN_APP
    = Fulfilled r
    /\ successful r = Z.of_nat (3 - 2)
    /\ failed r = Z.of_nat 2
    /\ length (results r) = 3%nat
    /\ Permutation (results r)
                   (map (fun u => (u, negb (sendFails Sample.flaky Sample.alert u)))
                        [Sample.alice; Sample.bob; Sample.carol]).
Proof.
  apply (C4_bulk_dispatch_counts (@rev IUser) Sample.strategy Sample.alert
           [Sample.alice; Sample.bob; Sample.carol] IN_APP Sample.flaky 2).
  - intro l. apply Permutation_sym, Permutation_rev.
  - reflexivity.
  - reflexivity.
Defined.

(** ** Reminder sweep *)

Lemma preSave_keeps_reminder_fields (now : Date) (p : IUserAlertPreference) :
  reminderCount (UserAlertPreference.preSave now p) = reminderCount p
  /\ lastReminderSent (UserAlertPreference.preSave now p) = lastReminderSent p.
Proof.
  unfold UserAlertPreference.preSave.
  destruct (isSnoozed p && date_not_after (snoozedUntil p) now); simpl.
  - split; reflexivity.
  - destruct (isSnoozed p); simpl; split; reflexivity.
Qed.

Lemma canReceiveReminder_keeps_reminder_fields (now now' : Date)
      (p : IUserAlertPreference) :
  reminderCount (snd (AlertPreferenceStateContext.canReceiveReminder now now' p))
  = reminderCount p
  /\ lastReminderSent (snd (AlertPreferenceStateContext.canReceiveReminder now now' p))
     = lastReminderSent p.
Proof.
  rewrite canReceiveReminder_context. cbn [snd].
  destruct (negb (isRead p) && _ && _); split; reflexivity.
Qed.

(** Recording a reminder and saving: the count is one more, the stamp is
    the reading of the recording, and memory and collection agree. *)
Lemma recordReminderSent_saved (now now' now'' : Date)
      (d : UserAlertPreference.Document) :
  let d' := UserAlertPreference.save
              now'' (UserAlertPreference.recordReminderSent now now' d) in
  reminderCount (UserAlertPreference.stored d')
  = reminderCount (UserAlertPreference.mem d) + 1
  /\ lastReminderSent (UserAlertPreference.stored d') = Some now
  /\ UserAlertPreference.mem d' = UserAlertPreference.stored d'.
Proof.
  unfold UserAlertPreference.recordReminderSent, UserAlertPreference.save.
  cbn [UserAlertPreference.mem UserAlertPreference.stored].
  rewrite !(proj1 (preSave_keeps_reminder_fields _ _)).
  rewrite !(proj2 (preSave_keeps_reminder_fields _ _)).
  repeat split; reflexivity.
Qed.

(** The callback in closed form: the document after the reminder query,
    recorded and saved twice when the query allows and the send succeeds. *)
Lemma reminderCallback_run (this : AlertService) (clock : nat -> Date)
      (alert : IAlert) (user : IUser) (d : UserAlertPreference.Document) :
  let r := AlertPreferenceStateContext.canReceiveReminder
             (clock 0%nat) (clock 1%nat) (UserAlertPreference.mem d) in
  let d1 := UserAlertPreference.mkDocument (snd r) (UserAlertPreference.stored d) in
  reminderCallback this clock alert user d
  = (if fst r && sendSucceeds (notificationStrategy this) alert user (deliveryType alert)
     then UserAlertPreference.save
            (clock 4%nat)
            (UserAlertPreference.recordReminderSent (clock 2%nat) (clock 3%nat) d1)
     else d1,
     Fulfilled tt).
Proof.
  unfold reminderCallback.
  destruct (AlertPreferenceStateContext.canReceiveReminder
              (clock 0%nat) (clock 1%nat) (UserAlertPreference.mem d)) as [can p].
  cbn [fst snd]. destruct can; cbn [andb]; [|reflexivity].
  unfold await. rewrite sendNotification_run.
  destruct (sendSucceeds (notificationStrategy this) alert user (deliveryType alert));
    reflexivity.
Qed.

Lemma reminderPromises_nth (this : AlertService) (clock : nat -> nat -> Date)
      (alert : IAlert) (prefs : list (IUser * UserAlertPreference.Document)) :
  forall (k0 k : nat) (user : IUser) (d : UserAlertPreference.Document),
    nth_error prefs k = Some (user, d) ->
    nth_error (map fst (reminderPromises this clock alert k0 prefs)) k
    = Some (fst (reminderCallback this (clock (S (k0 + k))) alert user d)).
Proof.
  induction prefs as [|[user0 d0] prefs IH]; intros k0 k user d H.
  - destruct k; discriminate H.
  - destruct k as [|k]; cbn [nth_error reminderPromises map] in *.
    + injection H as -> ->. rewrite Nat.add_0_r. reflexivity.
    + rewrite (IH (S k0) k user d H).
      replace (S k0 + k)%nat with (k0 + S k)%nat by lia. reflexivity.
Qed.

(** A preference the query returns is let through by the reminder query
    of the context at any later reading. *)
Lemma needsReminder_canReceiveReminder (now0 now now' : Date) (alert : ObjectId)
      (minutes : Z) (p : IUserAlertPreference) :
  UserAlertPreference.needsReminder now0 alert minutes p = true ->
  now0 <= now' ->
  fst (AlertPreferenceStateContext.canReceiveReminder now now' p) = true.
Proof.
  intros H Hle. rewrite canReceiveReminder_context. cbn [fst].
  unfold UserAlertPreference.needsReminder in H.
  apply andb_prop in H as [H _]. apply andb_prop in H as [H Hs].
  apply andb_prop in H as [_ Hr]. rewrite Hr. cbn [andb].
  unfold AlertPreferenceStateContext.isCurrentlySnoozed.
  destruct (isSnoozed p); [|reflexivity]. cbn [negb orb andb] in *.
  destruct (snoozedUntil p) as [u|]; cbn in *; [|reflexivity].
  apply Z.leb_le in Hs. apply negb_true_iff, Z.ltb_ge. lia.
Qed.

(** C6: in a reminder sweep, the document of each preference the query
    returned has its reminder recorded (count plus one, last-sent stamped
    with the reading of the recording), in memory and in the collection,
    exactly when the reminder query let it through and the send to its user
    succeeded; otherwise count and stamp are as before and nothing is
    written.  With a clock that does not run backwards the reminder query
    lets every returned preference through, so that recording then depends
    on the send alone. *)
Theorem C6_reminder_recorded_iff_sent :
  forall (this : AlertService) (clock : nat -> nat -> Date) (alert : IAlert)
         (collection : list (IUser * IUserAlertPreference)) (db : Db)
         (k : nat) (user : IUser) (d : UserAlertPreference.Document),
    nth_error (findUsersNeedingReminder (clock 0%nat 0%nat) (alert_id alert)
                 (reminderFrequencyMinutes alert) collection) k
    = Some (user, d) ->
    exists d',
      nth_error (fst (processReminderForAlert this clock alert collection db)) k
      = Some d'
      /\ let can :=
           fst (AlertPreferenceStateContext.canReceiveReminder
                  (clock (S k) 0%nat) (clock (S k) 1%nat)
                  (UserAlertPreference.mem d)) in
         let sent :=
           can && sendSucceeds (notificationStrategy this) alert user
                               (deliveryType alert) in
         let before := UserAlertPreference.stored d in
         (sent = true ->
          reminderCount (UserAlertPreference.stored d') = reminderCount before + 1
          /\ lastReminderSent (UserAlertPreference.stored d')
             = Some (clock (S k) 2%nat)
          /\ reminderCount (UserAlertPreference.mem d') = reminderCount before + 1
          /\ lastReminderSent (UserAlertPreference.mem d')
             = Some (clock (S k) 2%nat))
         /\ (sent = false ->
             UserAlertPreference.stored d' = before
             /\ reminderCount (UserAlertPreference.mem d') = reminderCount before
             /\ lastReminderSent (UserAlertPreference.mem d')
                = lastReminderSent before)
         /\ (reminderCount (UserAlertPreference.stored d') = reminderCount before + 1
             <-> sent = true)
         /\ (clock 0%nat 0%nat <= clock (S k) 1%nat ->
             can = true
             /\ (reminderCount (UserAlertPreference.stored d')
                 = reminderCount before + 1
                 <-> sendSucceeds (notificationStrategy this) alert user
                                  (deliveryType alert) = true)).
Proof.
  intros this clock alert collection db k user d H.
  (* a document of the query result is freshly loaded and passes the filter *)
  assert (Hd : UserAlertPreference.mem d = UserAlertPreference.stored d
               /\ UserAlertPreference.needsReminder
                    (clock 0%nat 0%nat) (alert_id alert)
                    (reminderFrequencyMinutes alert)
                    (UserAlertPreference.mem d) = true).
  { apply nth_error_In in H. unfold findUsersNeedingReminder in H.
    apply in_map_iff in H as [[u0 p0] [E Hin]]. cbn [fst snd] in E.
    injection E as <- <-. apply filter_In in Hin as [_ Hf].
    split; [reflexivity | exact Hf]. }
  destruct Hd as [Hmem Hneeds].
  exists (fst (reminderCallback this (clock (S k)) alert user d)).
  split.
  - unfold processReminderForAlert.
    destruct (findUsersNeedingReminder _ _ _ _) as [|x l] eqn:E.
    + destruct k; discriminate H.
    + cbn [length Nat.eqb fst]. apply (reminderPromises_nth _ _ _ _ 0%nat); exact H.
  - rewrite reminderCallback_run. cbn zeta. cbn [fst].
    pose proof (canReceiveReminder_keeps_reminder_fields
                  (clock (S k) 0%nat) (clock (S k) 1%nat)
                  (UserAlertPreference.mem d)) as [Hc Hl].
    rewrite Hmem in *.
    set (r := AlertPreferenceStateContext.canReceiveReminder _ _ _) in *.
    set (sent := fst r && sendSucceeds _ _ _ _).
    assert (Hrec : sent = true ->
              reminderCount (UserAlertPreference.stored
                (UserAlertPreference.save (clock (S k) 4%nat)
                   (UserAlertPreference.recordReminderSent
                      (clock (S k) 2%nat) (clock (S k) 3%nat)
                      (UserAlertPreference.mkDocument
                         (snd r) (UserAlertPreference.stored d)))))
              = reminderCount (UserAlertPreference.stored d) + 1
              /\ lastReminderSent (UserAlertPreference.stored
                   (UserAlertPreference.save (clock (S k) 4%nat)
                      (UserAlertPreference.recordReminderSent
                         (clock (S k) 2%nat) (clock (S k) 3%nat)
                         (UserAlertPreference.mkDocument
                            (snd r) (UserAlertPreference.stored d)))))
                 = Some (clock (S k) 2%nat)).
    { intros _.
      destruct (recordReminderSent_saved
                  (clock (S k) 2%nat) (clock (S k) 3%nat) (clock (S k) 4%nat)
                  (UserAlertPreference.mkDocument
                     (snd r) (UserAlertPreference.stored d))) as [E1 [E2 _]].
      rewrite E1, E2. cbn [UserAlertPreference.mem]. rewrite Hc.
      split; reflexivity. }
    assert (Hmemstored : forall doc now,
              UserAlertPreference.mem (UserAlertPreference.save now doc)
              = UserAlertPreference.stored (UserAlertPreference.save now doc))
      by reflexivity.
    destruct sent eqn:Es.
    + destruct (Hrec eq_refl) as [R1 R2].
      rewrite Hmemstored, R1, R2.
      split; [intros _; repeat split; reflexivity|].
      split; [discriminate|].
      split; [split; reflexivity|].
      intro Hle. subst sent.
      apply andb_prop in Es as [Ecan Eok]. rewrite Ecan, Eok.
      split; [reflexivity|]. split; reflexivity.
    + cbn [UserAlertPreference.stored UserAlertPreference.mem].
      split; [discriminate|].
      split; [intros _; rewrite Hc, Hl; repeat split; reflexivity|].
      split; [split; [lia | discriminate]|].
      intro Hle.
      assert (Ecan : fst r = true).
      { subst r. eapply needsReminder_canReceiveReminder; eassumption. }
      split; [exact Ecan|]. subst sent. rewrite Ecan in Es. cbn [andb] in Es.
      rewrite Es. split; [lia | discriminate].
Qed.

Lemma C6_reminder_recorded_iff_sent_witness :
  exists d',
    nth_error (fst (processReminderForAlert
                      Sample.service Sample.clock Sample.alert
                      [(Sample.bob, Sample.fresh); (Sample.alice, Sample.stale)]
                      Sample.db)) 1
    = Some d'
    /\ let d := UserAlertPreference.mkDocument Sample.stale Sample.stale in
       let can :=
         fst (AlertPreferenceStateContext.canReceiveReminder
                (Sample.clock 2 0) (Sample.clock 2 1) (UserAlertPreference.mem d)) in
       let sent :=
         can && sendSucceeds (notificationStrategy Sample.service) Sample.alert
                             Sample.alice (deliveryType Sample.alert) in
       let before := UserAlertPreference.stored d in
       (sent = true ->
        reminderCount (UserAlertPreference.stored d') = reminderCount before + 1
        /\ lastReminderSent (UserAlertPreference.stored d')
           = Some (Sample.clock 2 2)
        /\ reminderCount (UserAlertPreference.mem d') = reminderCount before + 1
        /\ lastReminderSent (UserAlertPreference.mem d')
           = Some (Sample.clock 2 2))
       /\ (sent = false ->
           UserAlertPreference.stored d' = before
           /\ reminderCount (UserAlertPreference.mem d') = reminderCount before
           /\ lastReminderSent (UserAlertPreference.mem d')
              = lastReminderSent before)
       /\ (reminderCount (UserAlertPreference.stored d') = reminderCount before + 1
           <-> sent = true)
       /\ (Sample.clock 0 0 <= Sample.clock 2 1 ->
           can = true
           /\ (reminderCount (UserAlertPreference.stored d')
               = reminderCount before + 1
               <-> sendSucceeds (notificationStrategy Sample.service) Sample.alert
                                Sample.alice (deliveryType Sample.alert) = true)).
Proof.
  apply (C6_reminder_recorded_iff_sent
           Sample.service Sample.clock Sample.alert
           [(Sample.bob, Sample.fresh); (Sample.alice, Sample.stale)]
           Sample.db 1 Sample.alice
           (UserAlertPreference.mkDocument Sample.stale Sample.stale)).
  reflexivity.
Defined.

(** The sweep on the sample: Bob's send returns false and nothing is
    recorded; Alice's send succeeds, her reminder is recorded, and the save
    also clears her elapsed snooze. *)
Example sweep_on_sample :
  fst (processReminderForAlert
         Sample.service Sample.clock Sample.alert
         [(Sample.bob, Sample.fresh); (Sample.alice, Sample.stale)] Sample.db)
  = [UserAlertPreference.mkDocument Sample.fresh Sample.fresh;
     let saved := mkPreference "u1" "a1" false false None (Some 122) 1 in
     UserAlertPreference.mkDocument saved saved].
Proof. reflexivity. Qed.

(** ** Validation of visibility targets *)

Section FindIdIn.
Context {A : Type}.
Variable id : A -> ObjectId.

Lemma existsb_eqb_In (i : ObjectId) (ids : list ObjectId) :
  existsb (String.eqb i) ids = true <-> In i ids.
Proof.
  rewrite existsb_exists. split.
  - intros [x [Hin E]]. apply String.eqb_eq in E. subst x. exact Hin.
  - intro Hin. exists i. split; [exact Hin | apply String.eqb_refl].
Qed.

Lemma find_id_in_In (ids : list ObjectId) (coll : list A) (i : ObjectId) :
  In i (map id (find_id_in id ids coll))
  <-> In i ids /\ exists d, In d coll /\ id d = i.
Proof.
  unfold find_id_in. rewrite in_map_iff. split.
  - intros [d [E Hin]]. apply filter_In in Hin as [Hin Hex].
    apply existsb_eqb_In in Hex. subst i. split; [exact Hex|].
    exists d. split; [exact Hin | reflexivity].
  - intros [Hin [d [Hd E]]]. exists d. split; [exact E|].
    apply filter_In. split; [exact Hd|].
    apply existsb_eqb_In. rewrite E. exact Hin.
Qed.

Lemma NoDup_map_filter (f : A -> bool) (coll : list A) :
  NoDup (map id coll) -> NoDup (map id (filter f coll)).
Proof.
  induction coll as [|d coll IH]; simpl; intro H; [constructor|].
  inversion H as [|x l Hnotin Hnodup]; subst.
  destruct (f d); simpl; [|apply IH; exact Hnodup].
  constructor; [|apply IH; exact Hnodup].
  intro Hin. apply Hnotin. apply in_map_iff in Hin as [d' [E Hd']].
  apply in_map_iff. exists d'. split; [exact E|].
  apply filter_In in Hd' as [Hd' _]. exact Hd'.
Qed.

(** With unique identities in the collection, a scope naming an
    identity that does not resolve finds fewer documents than it names. *)
Lemma find_id_in_unresolved (ids : list ObjectId) (coll : list A) (i : ObjectId) :
  NoDup (map id coll) ->
  In i ids ->
  (forall d, In d coll -> id d <> i) ->
  (length (find_id_in id ids coll) < length ids)%nat.
Proof.
  intros Hnodup Hin Hun.
  rewrite <- (length_map id).
  apply Nat.le_lt_trans with (length (remove string_dec i ids)).
  - apply NoDup_incl_length.
    + apply NoDup_map_filter. exact Hnodup.
    + intros j Hj. apply find_id_in_In in Hj as [Hj [d [Hd E]]].
      apply in_in_remove; [|exact Hj].
      intro Eji. rewrite Eji in E. exact (Hun d Hd E).
  - apply remove_length_lt. exact Hin.
Qed.

(** With unique identities in the collection, a scope naming distinct
    identities that all resolve finds exactly as many documents. *)
Lemma find_id_in_resolved (ids : list ObjectId) (coll : list A) :
  NoDup (map id coll) ->
  NoDup ids ->
  all_resolve id ids coll ->
  length (find_id_in id ids coll) = length ids.
Proof.
  intros Hnodup Hids Hall.
  rewrite <- (length_map id).
  apply Nat.le_antisymm.
  - apply NoDup_incl_length.
    + apply NoDup_map_filter. exact Hnodup.
    + intros j Hj. apply find_id_in_In in Hj as [Hj _]. exact Hj.
  - apply NoDup_incl_length; [exact Hids|].
    intros j Hj. apply find_id_in_In. split; [exact Hj | apply Hall; exact Hj].
Qed.
End FindIdIn.

(** The validation in closed form: it never changes the collections, and
    rejects exactly on a count mismatch of a team or user scope. *)
Lemma validateVisibilityTargets_run (visibility : Visibility) (db : Db) :
  validateVisibilityTargets visibility db
  = (db,
     match vis_type visibility with
     | ORGANIZATION => Fulfilled tt
     | TEAM =>
         if (length (find_id_in team_id (targetIds visibility) (Team db))
             =? length (targetIds visibility))%nat
         then Fulfilled tt
         else Rejected (mkError "Error" "One or more team IDs are invalid")
     | USER =>
         if (length (find_id_in user_id (targetIds visibility) (User db))
             =? length (targetIds visibility))%nat
         then Fulfilled tt
         else Rejected (mkError "Error" "One or more user IDs are invalid")
     end).
Proof.
  unfold validateVisibilityTargets.
  destruct (vis_type visibility); cbn [VisibilityType_eqb]; [reflexivity| |];
    unfold await, resolve, throw;
    destruct (_ =? _)%nat; reflexivity.
Qed.

(** An organization scope is accepted whatever its targets. *)
Lemma validate_organization_accepted (visibility : Visibility) (db : Db) :
  vis_type visibility = ORGANIZATION ->
  validateVisibilityTargets visibility db = (db, Fulfilled tt).
Proof.
  intro E. rewrite validateVisibilityTargets_run, E. reflexivity.
Qed.

(** A team or user scope naming an identity that does not resolve is
    rejected. *)
Lemma validate_unresolved_rejected (visibility : Visibility) (db : Db) (i : ObjectId) :
  NoDup (map team_id (Team db)) ->
  NoDup (map user_id (User db)) ->
  In i (targetIds visibility) ->
  (vis_type visibility = TEAM /\ (forall t, In t (Team db) -> team_id t <> i)
   \/ vis_type visibility = USER /\ (forall u, In u (User db) -> user_id u <> i)) ->
  exists e, validateVisibilityTargets visibility db = (db, Rejected e).
Proof.
  intros Ht Hu Hin [[E Hun] | [E Hun]];
    rewrite validateVisibilityTargets_run, E.
  - pose proof (find_id_in_unresolved team_id _ _ i Ht Hin Hun) as Hlt.
    destruct (Nat.eqb_spec (length (find_id_in team_id (targetIds visibility) (Team db)))
                           (length (targetIds visibility))); [lia|].
    eexists; reflexivity.
  - pose proof (find_id_in_unresolved user_id _ _ i Hu Hin Hun) as Hlt.
    destruct (Nat.eqb_spec (length (find_id_in user_id (targetIds visibility) (User db)))
                           (length (targetIds visibility))); [lia|].
    eexists; reflexivity.
Qed.

(** A scope naming distinct identities that all resolve is accepted. *)
Lemma validate_distinct_resolved_accepted (visibility : Visibility) (db : Db) :
  NoDup (map team_id (Team db)) ->
  NoDup (map user_id (User db)) ->
  NoDup (targetIds visibility) ->
  (vis_type visibility = TEAM -> all_resolve team_id (targetIds visibility) (Team db)) ->
  (vis_type visibility = USER -> all_resolve user_id (targetIds visibility) (User db)) ->
  validateVisibilityTargets visibility db = (db, Fulfilled tt).
Proof.
  intros Ht Hu Hids HT HU. rewrite validateVisibilityTargets_run.
  destruct (vis_type visibility); [reflexivity| |].
  - rewrite (find_id_in_resolved team_id _ _ Ht Hids (HT eq_refl)).
    rewrite Nat.eqb_refl. reflexivity.
  - rewrite (find_id_in_resolved user_id _ _ Hu Hids (HU eq_refl)).
    rewrite Nat.eqb_refl. reflexivity.
Qed.

(** When the validation rejects, [createAlert] rejects with the same error
    and the collections are as before: no alert was saved. *)
Lemma createAlert_rejected_not_persisted (this : AlertService) (clock : nat -> Date)
      (newId createdBy : ObjectId) (alertData : CreateAlertRequest) (db : Db)
      (e : JsError) :
  snd (validateVisibilityTargets (req_visibility alertData) db) = Rejected e ->
  createAlert this clock newId createdBy alertData db = (db, Rejected e).
Proof.
  intro H. unfold createAlert, try_catch. unfold await at 1.
  rewrite validateVisibilityTargets_run in *. cbn [snd] in H. rewrite H.
  reflexivity.
Qed.

(** C5 (the code departs from the claim): a team scope that names the one
    existing team twice references only identities that resolve, yet the
    validation rejects it with the invalid-identity error, and the alert
    is not created. *)
Theorem C5_duplicate_target_rejected :
  all_resolve team_id (targetIds Sample.twice) (Team Sample.db)
  /\ validateVisibilityTargets Sample.twice Sample.db
     = (Sample.db, Rejected (mkError "Error" "One or more team IDs are invalid"))
  /\ (forall this clock newId createdBy title message,
        createAlert this clock newId createdBy
                    (mkCreateAlertRequest title message INFO IN_APP
                                          None None None None Sample.twice)
                    Sample.db
        = (Sample.db, Rejected (mkError "Error" "One or more team IDs are invalid"))).
Proof.
  split; [|split].
  - intros i Hin. exists Sample.engineering. split; [left; reflexivity|].
    destruct Hin as [<- | [<- | []]]; reflexivity.
  - reflexivity.
  - intros. apply createAlert_rejected_not_persisted. reflexivity.
Qed.

(** * Further properties *)

(** ** Transitions of the state machine *)

Lemma markAsRead_context (now : Date) (p : IUserAlertPreference) :
  AlertPreferenceStateContext.markAsRead now p
  = if isRead p then p
    else set_snoozedUntil None (set_isSnoozed false (set_isRead true p)).
Proof.
  unfold AlertPreferenceStateContext.markAsRead,
    AlertPreferenceStateContext.getCurrentState.
  destruct (isRead p); [reflexivity|].
  destruct (isSnoozed p && _); reflexivity.
Qed.

Lemma getStateName_read (t : Date) (p : IUserAlertPreference) :
  isRead p = true -> AlertPreferenceStateContext.getStateName t p = "READ".
Proof.
  intro E. unfold AlertPreferenceStateContext.getStateName. rewrite E. reflexivity.
Qed.

(** X1: marking as read through the context always yields a read
    preference; an unread or snoozed one loses both snooze fields, a read
    one is returned as it is; the reminder bookkeeping is never touched;
    afterwards the derived state is READ at every time, no reminder is
    due, and marking again changes nothing. *)
Theorem markAsRead_reads_and_clears :
  forall (now : Date) (p : IUserAlertPreference),
    let p' := AlertPreferenceStateContext.markAsRead now p in
    isRead p' = true
    /\ (isRead p = false -> isSnoozed p' = false /\ snoozedUntil p' = None)
    /\ (isRead p = true -> p' = p)
    /\ (reminderCount p' = reminderCount p
        /\ lastReminderSent p' = lastReminderSent p
        /\ userId p' = userId p /\ alertId p' = alertId p)
    /\ (forall t, AlertPreferenceStateContext.getStateName t p' = "READ")
    /\ (forall t t', AlertPreferenceStateContext.canReceiveReminder t t' p'
                     = (false, p'))
    /\ (forall t, AlertPreferenceStateContext.markAsRead t p' = p').
Proof.
  intros now p p'. subst p'.
  assert (Hr : isRead (AlertPreferenceStateContext.markAsRead now p) = true).
  { rewrite markAsRead_context. destruct (isRead p) eqn:E; [exact E | reflexivity]. }
  split; [exact Hr|].
  split; [intro E; rewrite markAsRead_context, E; split; reflexivity|].
  split; [intro E; rewrite markAsRead_context, E; reflexivity|].
  split; [rewrite markAsRead_context; destruct (isRead p); repeat split; reflexivity|].
  split; [intro t; apply getStateName_read; exact Hr|].
  split.
  - intros t t'. rewrite canReceiveReminder_context, Hr. reflexivity.
  - intro t. rewrite (markAsRead_context t), Hr. reflexivity.
Qed.

Lemma snooze_context (now now' : Date) (hours : Z) (p : IUserAlertPreference) :
  AlertPreferenceStateContext.snooze now now' p hours
  = if isRead p then p
    else set_snoozedUntil (Some (now' + hours_ms hours)) (set_isSnoozed true p).
Proof.
  unfold AlertPreferenceStateContext.snooze,
    AlertPreferenceStateContext.getCurrentState.
  destruct (isRead p); [reflexivity|].
  destruct (isSnoozed p) eqn:Es; cbn [andb]; [|reflexivity].
  destruct (AlertPreferenceStateContext.isCurrentlySnoozed now p); [|reflexivity].
  cbn. unfold SnoozedState.snooze, set_snoozedUntil, set_isSnoozed. cbn.
  rewrite Es. reflexivity.
Qed.



(** X3: unsnoozing after a snooze gives what unsnoozing alone gives,
    whatever the state and the hours; on a preference that carried no
    snooze fields the two calls give the preference back. *)
Theorem unsnooze_undoes_snooze :
  forall (now now' t : Date) (hours : Z) (p : IUserAlertPreference),
    AlertPreferenceStateContext.unsnooze
      t (AlertPreferenceStateContext.snooze now now' p hours)
    = AlertPreferenceStateContext.unsnooze t p
    /\ (isSnoozed p = false -> snoozedUntil p = None ->
        AlertPreferenceStateContext.unsnooze
          t (AlertPreferenceStateContext.snooze now now' p hours) = p).
Proof.
  intros now now' t hours p.
  assert (E : AlertPreferenceStateContext.unsnooze
                t (AlertPreferenceStateContext.snooze now now' p hours)
              = AlertPreferenceStateContext.unsnooze t p).
  { rewrite !unsnooze_any_state, snooze_context.
    destruct (isRead p); reflexivity. }
  split; [exact E|].
  intros Es Eu. rewrite E, unsnooze_any_state.
  destruct p as [u a r s su l c]. cbn in *. subst. reflexivity.
Qed.

(** X4: the automatic transitions report a change exactly for a preference
    flagged snoozed outside an active window, and then clear both snooze
    fields; afterwards a set flag means an active window; the derived
    state, the read flag and the reminder bookkeeping are as before; a
    second run reports no change. *)
Theorem automatic_transitions_reconcile :
  forall (now now' : Date) (p : IUserAlertPreference),
    let r := AlertPreferenceStateContext.processAutomaticTransitions now now' p in
    fst r = isSnoozed p && negb (AlertPreferenceStateContext.isCurrentlySnoozed now p)
    /\ snd r = (if fst r then set_snoozedUntil None (set_isSnoozed false p) else p)
    /\ (isSnoozed (snd r) = true ->
        AlertPreferenceStateContext.isCurrentlySnoozed now (snd r) = true)
    /\ AlertPreferenceStateContext.getStateName now (snd r)
       = AlertPreferenceStateContext.getStateName now p
    /\ (isRead (snd r) = isRead p /\ reminderCount (snd r) = reminderCount p
        /\ lastReminderSent (snd r) = lastReminderSent p)
    /\ AlertPreferenceStateContext.processAutomaticTransitions now now' (snd r)
       = (false, snd r).
Proof.
  intros now now' p r. subst r.
  unfold AlertPreferenceStateContext.processAutomaticTransitions.
  rewrite unsnooze_any_state.
  unfold AlertPreferenceStateContext.getStateName,
    AlertPreferenceStateContext.isCurrentlySnoozed.
  destruct (isSnoozed p) eqn:Es; cbn [andb negb fst snd].
  - destruct (date_after (snoozedUntil p) now) eqn:Ea; cbn [negb fst snd].
    + rewrite Es, Ea. cbn. repeat split; reflexivity.
    + cbn. destruct (isRead p); repeat split; try reflexivity; discriminate.
  - rewrite Es. cbn. repeat split; try reflexivity; discriminate.
Qed.

(** ** The preference model *)

(** X5: the reminder query selects a preference exactly when it belongs
    to the alert, the instance method [shouldReceiveReminder] accepts it at
    the same time, and it is not flagged snoozed without a date: every
    preference the query returns passes the instance method, and the two
    differ only on a set flag with no [snoozedUntil]. *)
Theorem reminder_query_matches_instance_method :
  forall (now : Date) (alert : ObjectId) (minutes : Z) (p : IUserAlertPreference),
    UserAlertPreference.needsReminder now alert minutes p
    = String.eqb (alertId p) alert
      && PreferenceMethods.shouldReceiveReminder now now minutes p
      && negb (isSnoozed p && match snoozedUntil p with None => true | Some _ => false end).
Proof.
  intros now alert minutes p.
  unfold UserAlertPreference.needsReminder, PreferenceMethods.shouldReceiveReminder,
    UserAlertPreference.isCurrentlySnoozed.
  destruct (String.eqb (alertId p) alert); [|reflexivity].
  destruct (isRead p); [reflexivity|].
  cbn [andb negb].
  assert (Hl : match lastReminderSent p with
               | Some t => t <=? now - minutes * 60 * 1000
               | None => true
               end
               = match lastReminderSent p with
                 | Some last => minutes * 60 * 1000 <=? now - last
                 | None => true
                 end).
  { destruct (lastReminderSent p) as [l|]; [|reflexivity].
    destruct (Z.leb_spec l (now - minutes * 60 * 1000));
      destruct (Z.leb_spec (minutes * 60 * 1000) (now - l)); try lia; reflexivity. }
  rewrite Hl.
  destruct (isSnoozed p); cbn [andb negb orb]; [|rewrite andb_true_r; reflexivity].
  destruct (snoozedUntil p) as [u|]; cbn [date_after date_not_after].
  - destruct (Z.leb_spec u now); destruct (Z.ltb_spec now u); try lia;
      cbn [andb negb]; rewrite ?andb_true_r; reflexivity.
  - cbn [andb negb]. rewrite andb_false_r. reflexivity.
Qed.

(** X6: saving twice, the second time not earlier than the first, leaves
    the fields a single save at the second time leaves; in particular the
    hook is idempotent. *)
Theorem preSave_twice :
  forall (now now' : Date) (p : IUserAlertPreference),
    now <= now' ->
    UserAlertPreference.preSave now' (UserAlertPreference.preSave now p)
    = UserAlertPreference.preSave now' p
    /\ UserAlertPreference.preSave now (UserAlertPreference.preSave now p)
       = UserAlertPreference.preSave now p.
Proof.
  assert (H : forall now now' p, now <= now' ->
                UserAlertPreference.preSave now' (UserAlertPreference.preSave now p)
                = UserAlertPreference.preSave now' p).
  { intros now now' p Hle. unfold UserAlertPreference.preSave.
    destruct p as [u a r s su l c]. cbn.
    destruct s; cbn; [|reflexivity].
    destruct su as [v|]; cbn; [|reflexivity].
    destruct (Z.leb_spec v now); destruct (Z.leb_spec v now'); cbn;
      try lia; try reflexivity.
    all: destruct (Z.leb_spec v now'); cbn; try lia; reflexivity. }
  intros now now' p Hle. split; [apply H; exact Hle | apply H; lia].
Qed.

Lemma preSave_twice_witness :
  UserAlertPreference.preSave 600 (UserAlertPreference.preSave 10 Fixture.snoozedUnread)
  = UserAlertPreference.preSave 600 Fixture.snoozedUnread
  /\ UserAlertPreference.preSave 10 (UserAlertPreference.preSave 10 Fixture.snoozedUnread)
     = UserAlertPreference.preSave 10 Fixture.snoozedUnread.
Proof.
  apply (preSave_twice 10 600 Fixture.snoozedUnread). lia.
Defined.

(** X7: among preferences that went through the save hook, the query for
    expired snoozes at a time not later than their saves finds none. *)
Theorem no_expired_snooze_after_save :
  forall (now now' : Date) (collection : list IUserAlertPreference),
    now <= now' ->
    PreferenceMethods.findExpiredSnoozes
      now (map (UserAlertPreference.preSave now') collection) = [].
Proof.
  intros now now' collection Hle.
  unfold PreferenceMethods.findExpiredSnoozes.
  induction collection as [|p l IH]; [reflexivity|].
  cbn [map filter]. rewrite IH.
  destruct (isSnoozed (UserAlertPreference.preSave now' p)) eqn:Es; [|reflexivity].
  destruct (snoozedUntil (UserAlertPreference.preSave now' p)) as [u|] eqn:Eu;
    [|reflexivity].
  destruct (preSave_normalized now' p u Eu) as [_ Hlt].
  cbn. destruct (Z.leb_spec u now); [lia | reflexivity].
Qed.

Lemma no_expired_snooze_after_save_witness :
  PreferenceMethods.findExpiredSnoozes
    10 (map (UserAlertPreference.preSave 10)
            [Sample.stale; Fixture.snoozedUnread; Sample.readFlagged]) = [].
Proof.
  apply (no_expired_snooze_after_save 10 10). lia.
Defined.

(** ** Acknowledgment operations of the service *)

Lemma preSave_keeps_identity (now : Date) (p : IUserAlertPreference) :
  isRead (UserAlertPreference.preSave now p) = isRead p
  /\ userId (UserAlertPreference.preSave now p) = userId p
  /\ alertId (UserAlertPreference.preSave now p) = alertId p.
Proof.
  unfold UserAlertPreference.preSave.
  destruct (isSnoozed p && date_not_after (snoozedUntil p) now); simpl.
  - repeat split; reflexivity.
  - destruct (isSnoozed p); simpl; repeat split; reflexivity.
Qed.

(** The save hook on a preference without snooze fields changes nothing. *)
Lemma preSave_unsnoozed (now : Date) (p : IUserAlertPreference) :
  isSnoozed p = false -> snoozedUntil p = None ->
  UserAlertPreference.preSave now p = p.
Proof.
  intros Es Eu. destruct p as [u a r s su l c]. cbn in *. subst. reflexivity.
Qed.

Lemma needsReminder_read (t : Date) (a : ObjectId) (m : Z) (p : IUserAlertPreference) :
  isRead p = true -> UserAlertPreference.needsReminder t a m p = false.
Proof.
  intro E. unfold UserAlertPreference.needsReminder. rewrite E.
  destruct (String.eqb (alertId p) a); reflexivity.
Qed.

(** X8: marking an alert as read for a user whose preference is missing
    rejects with the not-found error; otherwise it answers true and the
    preference as written is read, agrees with the document in memory,
    keeps its reminder bookkeeping, has lost both snooze fields if it was
    not read before, is never selected again by the reminder query and is
    never let through by the reminder check. *)
Theorem markAlertAsRead_effect :
  forall (clock : nat -> Date) (d : UserAlertPreference.Document),
    markAlertAsRead clock None = (None, Rejected preferenceNotFound)
    /\ exists d',
        markAlertAsRead clock (Some d) = (Some d', Fulfilled true)
        /\ UserAlertPreference.mem d' = UserAlertPreference.stored d'
        /\ isRead (UserAlertPreference.stored d') = true
        /\ (isRead (UserAlertPreference.mem d) = false ->
            isSnoozed (UserAlertPreference.stored d') = false
            /\ snoozedUntil (UserAlertPreference.stored d') = None)
        /\ (reminderCount (UserAlertPreference.stored d')
            = reminderCount (UserAlertPreference.mem d)
            /\ lastReminderSent (UserAlertPreference.stored d')
               = lastReminderSent (UserAlertPreference.mem d))
        /\ (forall t a m,
               UserAlertPreference.needsReminder
                 t a m (UserAlertPreference.stored d') = false)
        /\ (forall t t',
               fst (AlertPreferenceStateContext.canReceiveReminder
                      t t' (UserAlertPreference.stored d')) = false).
Proof.
  intros clock d. split; [reflexivity|].
  eexists. split; [reflexivity|].
  cbn [UserAlertPreference.save UserAlertPreference.mem UserAlertPreference.stored].
  set (p := AlertPreferenceStateContext.markAsRead
              (clock 0%nat) (UserAlertPreference.mem d)).
  destruct (preSave_keeps_identity (clock 1%nat) p) as [Hr _].
  destruct (preSave_keeps_reminder_fields (clock 1%nat) p) as [Hc Hl].
  assert (Hp : isRead p = true).
  { subst p. rewrite markAsRead_context.
    destruct (isRead (UserAlertPreference.mem d)) eqn:E; [exact E | reflexivity]. }
  split; [reflexivity|]. split; [rewrite Hr; exact Hp|].
  split.
  { intro E. subst p. rewrite markAsRead_context, E.
    rewrite preSave_unsnoozed by reflexivity. split; reflexivity. }
  split.
  { rewrite Hc, Hl. subst p. rewrite markAsRead_context.
    destruct (isRead (UserAlertPreference.mem d)); split; reflexivity. }
  split.
  - intros t a m. apply needsReminder_read. rewrite Hr. exact Hp.
  - intros t t'. rewrite canReceiveReminder_context, Hr, Hp. reflexivity.
Qed.



(** X10: snoozing an alert the user has already read still answers true,
    but does what a plain save does: the preference stays read and no
    snooze is added to it. *)
Theorem snoozeAlert_read :
  forall (clock : nat -> Date) (hours : Z) (d : UserAlertPreference.Document),
    isRead (UserAlertPreference.mem d) = true ->
    snoozeAlert clock hours (Some d)
    = (Some (UserAlertPreference.save (clock 2%nat) d), Fulfilled true)
    /\ isRead (UserAlertPreference.stored
                 (UserAlertPreference.save (clock 2%nat) d)) = true
    /\ (snoozedUntil (UserAlertPreference.mem d) = None ->
        snoozedUntil (UserAlertPreference.stored
                        (UserAlertPreference.save (clock 2%nat) d)) = None
        /\ isSnoozed (UserAlertPreference.stored
                        (UserAlertPreference.save (clock 2%nat) d))
           = isSnoozed (UserAlertPreference.mem d)).
Proof.
  intros clock hours d Er.
  split; [|split].
  - unfold snoozeAlert, try_catch. rewrite snooze_context, Er. reflexivity.
  - cbn. rewrite (proj1 (preSave_keeps_identity _ _)). exact Er.
  - intro Eu. destruct d as [[u a r s su l c] st]. cbn in Eu. subst su.
    destruct s; split; reflexivity.
Qed.

Lemma snoozeAlert_read_witness :
  snoozeAlert Fixture.ticking 5
              (Some (UserAlertPreference.mkDocument Sample.read Sample.read))
  = (Some (UserAlertPreference.save
             (Fixture.ticking 2)
             (UserAlertPreference.mkDocument Sample.read Sample.read)),
     Fulfilled true)
  /\ isRead (UserAlertPreference.stored
               (UserAlertPreference.save
                  (Fixture.ticking 2)
                  (UserAlertPreference.mkDocument Sample.read Sample.read))) = true
  /\ (snoozedUntil (UserAlertPreference.mem
                      (UserAlertPreference.mkDocument Sample.read Sample.read)) = None ->
      snoozedUntil (UserAlertPreference.stored
                      (UserAlertPreference.save
                         (Fixture.ticking 2)
                         (UserAlertPreference.mkDocument Sample.read Sample.read)))
      = None
      /\ isSnoozed (UserAlertPreference.stored
                      (UserAlertPreference.save
                         (Fixture.ticking 2)
                         (UserAlertPreference.mkDocument Sample.read Sample.read)))
         = isSnoozed (UserAlertPreference.mem
                        (UserAlertPreference.mkDocument Sample.read Sample.read))).
Proof.
  apply (snoozeAlert_read Fixture.ticking 5
           (UserAlertPreference.mkDocument Sample.read Sample.read)).
  reflexivity.
Defined.

(** X11: unsnoozing an alert for a user whose preference is missing
    rejects with the not-found error; otherwise it answers true and the
    preference is written with both snooze fields cleared and every other
    field as it was in memory, whatever its state. *)
Theorem unsnoozeAlert_effect :
  forall (clock : nat -> Date) (d : UserAlertPreference.Document),
    unsnoozeAlert clock None = (None, Rejected preferenceNotFound)
    /\ exists d',
        unsnoozeAlert clock (Some d) = (Some d', Fulfilled true)
        /\ UserAlertPreference.mem d' = UserAlertPreference.stored d'
        /\ UserAlertPreference.stored d'
           = set_snoozedUntil None (set_isSnoozed false (UserAlertPreference.mem d))
        /\ (forall t, AlertPreferenceStateContext.getStateName
                        t (UserAlertPreference.stored d')
                      = if isRead (UserAlertPreference.mem d) then "READ" else "UNREAD").
Proof.
  intros clock d. split; [reflexivity|].
  eexists. split; [reflexivity|].
  cbn [UserAlertPreference.save UserAlertPreference.mem UserAlertPreference.stored].
  rewrite unsnooze_any_state, preSave_unsnoozed by reflexivity.
  split; [reflexivity|]. split; [reflexivity|].
  intro t. unfold AlertPreferenceStateContext.getStateName. cbn.
  destruct (isRead (UserAlertPreference.mem d)); reflexivity.
Qed.

(** ** The user's list of alerts *)

Lemma processAutomaticTransitions_run (now now' : Date) (p : IUserAlertPreference) :
  AlertPreferenceStateContext.processAutomaticTransitions now now' p
  = if isSnoozed p && negb (AlertPreferenceStateContext.isCurrentlySnoozed now p)
    then (true, set_snoozedUntil None (set_isSnoozed false p))
    else (false, p).
Proof.
  unfold AlertPreferenceStateContext.processAutomaticTransitions.
  rewrite unsnooze_any_state. reflexivity.
Qed.

(** X12: for an alert the user has no preference for yet, the list entry
    is built on a new preference, written unread with no snooze and no
    reminder sent; the entry reports UNREAD with the actions markAsRead and
    snooze, whatever the clock. *)
Theorem first_sight_entry :
  forall (clock : nat -> Date) (user : ObjectId) (alert : IAlert),
    let fresh := mkPreference user (alert_id alert) false false None None 0 in
    alertWithPreference clock user alert None
    = (UserAlertPreference.mkDocument fresh fresh,
       mkAlertWithPreference alert fresh "UNREAD" ["markAsRead"; "snooze"]).
Proof. reflexivity. Qed.

(** X13: when the readings of the automatic transitions, of the state name
    and of the available actions are the same, the list entry of an
    existing preference reports the state derived from the loaded fields,
    and for a preference that is not read the two actions of that state:
    markAsRead with unsnooze when SNOOZED, markAsRead with snooze when
    UNREAD; a stale snooze flag has been cleared, in memory and in the
    collection. *)
Theorem list_entry_consistent :
  forall (clock : nat -> Date) (user : ObjectId) (alert : IAlert)
         (d : UserAlertPreference.Document),
    clock 4%nat = clock 1%nat ->
    clock 5%nat = clock 1%nat ->
    let r := alertWithPreference clock user alert (Some d) in
    let now := clock 1%nat in
    let p := UserAlertPreference.mem d in
    entry_state (snd r) = AlertPreferenceStateContext.getStateName now p
    /\ entry_preference (snd r) = UserAlertPreference.mem (fst r)
    /\ (isRead p = false ->
        entry_availableActions (snd r)
        = if AlertPreferenceStateContext.isCurrentlySnoozed now p
          then ["markAsRead"; "unsnooze"]
          else ["markAsRead"; "snooze"])
    /\ (isSnoozed p = true ->
        AlertPreferenceStateContext.isCurrentlySnoozed now p = false ->
        UserAlertPreference.mem (fst r) = set_snoozedUntil None (set_isSnoozed false p)
        /\ UserAlertPreference.stored (fst r) = UserAlertPreference.mem (fst r)).
Proof.
  intros clock user alert d E4 E5 r now p. subst r now p.
  unfold alertWithPreference. rewrite processAutomaticTransitions_run, E4, E5.
  set (p := UserAlertPreference.mem d). set (now := clock 1%nat).
  unfold AlertPreferenceStateContext.getStateName,
    AlertPreferenceStateContext.getAvailableActions,
    AlertPreferenceStateContext.isCurrentlySnoozed.
  destruct (isSnoozed p) eqn:Es; cbn [andb negb].
  - destruct (date_after (snoozedUntil p) now) eqn:Ea; cbn [negb fst snd].
    + cbn. fold p. rewrite Es, Ea.
      repeat split; try discriminate.
      intros Er. rewrite Er. reflexivity.
    + cbn [UserAlertPreference.save UserAlertPreference.mem
             UserAlertPreference.stored entry_state entry_preference
             entry_availableActions fst snd].
      rewrite preSave_unsnoozed by reflexivity. cbn.
      destruct (isRead p) eqn:Er; repeat split; try reflexivity; discriminate.
  - cbn. fold p. rewrite Es. cbn.
    repeat split; try discriminate.
    intros Er. rewrite Er. reflexivity.
Qed.

Lemma list_entry_consistent_witness :
  let r := alertWithPreference
             (Fixture.frozen 10) "u1" Sample.alert
             (Some (UserAlertPreference.mkDocument Sample.stale Sample.stale)) in
  let now := Fixture.frozen 10 1 in
  let p := UserAlertPreference.mem
             (UserAlertPreference.mkDocument Sample.stale Sample.stale) in
  entry_state (snd r) = AlertPreferenceStateContext.getStateName now p
  /\ entry_preference (snd r) = UserAlertPreference.mem (fst r)
  /\ (isRead p = false ->
      entry_availableActions (snd r)
      = if AlertPreferenceStateContext.isCurrentlySnoozed now p
        then ["markAsRead"; "unsnooze"]
        else ["markAsRead"; "snooze"])
  /\ (isSnoozed p = true ->
      AlertPreferenceStateContext.isCurrentlySnoozed now p = false ->
      UserAlertPreference.mem (fst r) = set_snoozedUntil None (set_isSnoozed false p)
      /\ UserAlertPreference.stored (fst r) = UserAlertPreference.mem (fst r)).
Proof.
  apply (list_entry_consistent
           (Fixture.frozen 10) "u1" Sample.alert
           (UserAlertPreference.mkDocument Sample.stale Sample.stale));
    reflexivity.
Defined.

(** ** The channel registry *)

Lemma DeliveryType_eqb_eq (a b : DeliveryType) :
  DeliveryType_eqb a b = true <-> a = b.
Proof.
  destruct a; destruct b; split; intro H; try reflexivity; discriminate H.
Qed.

Lemma DeliveryType_eqb_refl (a : DeliveryType) : DeliveryType_eqb a a = true.
Proof. destruct a; reflexivity. Qed.

Lemma DeliveryType_eqb_neq (a b : DeliveryType) :
  a <> b -> DeliveryType_eqb a b = false.
Proof.
  intro H. destruct (DeliveryType_eqb a b) eqn:E; [|reflexivity].
  apply DeliveryType_eqb_eq in E. contradiction.
Qed.

(** X14: a channel added to the strategy is the one found and used for
    its delivery type, replacing any channel registered for that type
    before, and the other types keep their channels; after a removal the
    type has no channel, a send for it answers false without throwing, and
    the other types keep their channels. *)
Theorem channel_registry_laws :
  forall (this : NotificationStrategy) (channel : INotificationChannel)
         (type type' : DeliveryType) (alert : IAlert) (user : IUser),
    getChannel (addChannel this channel) (getType channel) = Some channel
    /\ (type <> getType channel ->
        getChannel (addChannel this channel) type = getChannel this type)
    /\ @sendNotification unit (addChannel this channel) alert user (getType channel) tt
       = (tt, Fulfilled (negb (sendFails channel alert user)))
    /\ hasChannel (removeChannel this type) type = false
    /\ isDeliveryTypeSupported (removeChannel this type) type = false
    /\ (type' <> type ->
        getChannel (removeChannel this type) type' = getChannel this type')
    /\ @sendNotification unit (removeChannel this type) alert user type tt
       = (tt, Fulfilled false)
    /\ (forall t, getChannel (removeChannel (addChannel this channel) (getType channel)) t
                  = getChannel (removeChannel this (getType channel)) t).
Proof.
  intros this channel type type' alert user.
  assert (Hadd : getChannel (addChannel this channel) (getType channel) = Some channel).
  { unfold getChannel, addChannel. cbn. rewrite DeliveryType_eqb_refl. reflexivity. }
  assert (Hrem : channels (removeChannel this type) type = None).
  { unfold removeChannel. cbn. rewrite DeliveryType_eqb_refl. reflexivity. }
  split; [exact Hadd|].
  split.
  { intro Hne. unfold getChannel, addChannel. cbn.
    rewrite (DeliveryType_eqb_neq _ _ Hne). reflexivity. }
  split.
  { rewrite sendNotification_run. unfold sendSucceeds.
    unfold getChannel in Hadd. rewrite Hadd. reflexivity. }
  split; [unfold hasChannel; rewrite Hrem; reflexivity|].
  split; [unfold isDeliveryTypeSupported, hasChannel; rewrite Hrem; reflexivity|].
  split.
  { intro Hne. unfold getChannel, removeChannel. cbn.
    rewrite (DeliveryType_eqb_neq _ _ Hne). reflexivity. }
  split.
  { rewrite sendNotification_run. unfold sendSucceeds. rewrite Hrem. reflexivity. }
  intro t. unfold getChannel, removeChannel, addChannel. cbn.
  destruct (DeliveryType_eqb t (getType channel)); reflexivity.
Qed.

(** X15: bulk dispatch through a delivery type that has no channel
    returns normally with every recipient counted as failed: no success,
    as many failures as recipients, and an outcome list that pairs each
    recipient with false. *)
Theorem bulk_dispatch_without_channel :
  forall (settled : list IUser -> list IUser)
         (this : NotificationStrategy) (alert : IAlert) (users : list IUser)
         (type : DeliveryType),
    (forall l, Permutation (settled l) l) ->
    channels this type = None ->
    exists r,
      sendBulkNotifications settled this alert users type = Fulfilled r
      /\ successful r = 0
      /\ failed r = Z.of_nat (length users)
      /\ Permutation (results r) (map (fun u => (u, false)) users).
Proof.
  intros settled this alert users type Hperm Hnone.
  destruct (batchLoop_run settled Hperm this alert type users
                          (length users) 0 (mkBulkResult 0 0 []))
    as [r [Hr [Hs [Hf Hp]]]]; [lia|].
  exists r. unfold sendBulkNotifications. rewrite Hr.
  cbn [skipn successful failed results app] in Hs, Hf, Hp.
  assert (Hok : forall u, sendSucceeds this alert u type = false).
  { intro u. unfold sendSucceeds. rewrite Hnone. reflexivity. }
  split; [reflexivity|].
  split.
  { rewrite Hs. rewrite (filter_ext _ (fun _ => false)) by exact Hok.
    rewrite filter_false. reflexivity. }
  split.
  { rewrite Hf.
    rewrite (filter_ext _ (fun _ => true)) by (intro u; rewrite Hok; reflexivity).
    rewrite filter_true. reflexivity. }
  eapply Permutation_trans; [exact Hp|]. apply Permutation_refl'.
  apply map_ext. intro u. rewrite Hok. reflexivity.
Qed.

Lemma bulk_dispatch_without_channel_witness :
  exists r,
    sendBulkNotifications (@rev IUser) Sample.strategy Sample.alert
                          [Sample.alice; Sample.bob] SMS
    = Fulfilled r
    /\ successful r = 0
    /\ failed r = Z.of_nat (length [Sample.alice; Sample.bob])
    /\ Permutation (results r)
                   (map (fun u => (u, false)) [Sample.alice; Sample.bob]).
Proof.
  apply (bulk_dispatch_without_channel (@rev IUser) Sample.strategy Sample.alert
           [Sample.alice; Sample.bob] SMS).
  - intro l. apply Permutation_sym, Permutation_rev.
  - reflexivity.
Defined.

Lemma multipleChannels_run (this : NotificationStrategy) (alert : IAlert)
      (user : IUser) (l : list DeliveryType) :
  forall results0 : ChannelResults,
  exists results l',
    promise_all
      (map (fun deliveryType =>
              let* r := sendNotification this alert user deliveryType in
              fun results => (set_result results deliveryType r, Fulfilled tt)) l)
      results0
    = (results, Fulfilled l')
    /\ forall type,
        results type
        = if existsb (DeliveryType_eqb type) l
          then Some (sendSucceeds this alert user type)
          else results0 type.
Proof.
  induction l as [|t l IH]; intro results0.
  - exists results0, []. split; reflexivity.
  - cbn [map promise_all]. unfold await at 1. rewrite sendNotification_run.
    destruct (IH (set_result results0 t (sendSucceeds this alert user t)))
      as [results [l' [E H]]].
    rewrite E. exists results, (tt :: l'). split; [reflexivity|].
    intro type. rewrite H. cbn [existsb]. unfold set_result.
    destruct (existsb (DeliveryType_eqb type) l).
    + rewrite orb_true_r. reflexivity.
    + rewrite orb_false_r. destruct (DeliveryType_eqb type t) eqn:Et; [|reflexivity].
      apply DeliveryType_eqb_eq in Et. subst t. reflexivity.
Qed.

(** X16: a send over several delivery types returns normally with a
    result object that holds, for each requested type, whether the send
    through that type succeeded (false when the type has no channel or its
    channel throws), and no entry for a type that was not requested. *)
Theorem sendToMultipleChannels_results :
  forall (this : NotificationStrategy) (alert : IAlert) (user : IUser)
         (deliveryTypes : list DeliveryType),
  exists results,
    sendToMultipleChannels this alert user deliveryTypes = Fulfilled results
    /\ forall type,
        results type
        = if existsb (DeliveryType_eqb type) deliveryTypes
          then Some (sendSucceeds this alert user type)
          else None.
Proof.
  intros this alert user deliveryTypes.
  destruct (multipleChannels_run this alert user deliveryTypes (fun _ => None))
    as [results [l' [E H]]].
  exists results. split; [|exact H].
  unfold sendToMultipleChannels. unfold await at 1. rewrite E. reflexivity.
Qed.

(** ** The observer list *)


(** ** Audience resolution *)

Lemma findIndex_lt (i : ObjectId) (l : list IUser) (k : nat) :
  findIndex i l = Some k -> (k < length l)%nat.
Proof.
  revert k. induction l as [|u l IH]; intros k H; [discriminate H|].
  cbn in H. destruct (String.eqb (user_id u) i).
  - injection H as <-. cbn. lia.
  - destruct (findIndex i l) as [j|]; [|discriminate H].
    injection H as <-. cbn. specialize (IH j eq_refl). lia.
Qed.

Lemma findIndex_None (i : ObjectId) (l : list IUser) :
  findIndex i l = None <-> existsb (String.eqb i) (map user_id l) = false.
Proof.
  induction l as [|u l IH]; cbn; [split; reflexivity|].
  rewrite (String.eqb_sym i (user_id u)).
  destruct (String.eqb (user_id u) i); cbn.
  - split; discriminate.
  - destruct (findIndex i l); cbn.
    + split; [discriminate|]. intro H. apply IH in H. discriminate H.
    + split; [intros _; apply IH; reflexivity | reflexivity].
Qed.

Lemma findIndex_app (i : ObjectId) (pre l : list IUser) :
  findIndex i (pre ++ l)
  = match findIndex i pre with
    | Some k => Some k
    | None => option_map (Nat.add (length pre)) (findIndex i l)
    end.
Proof.
  induction pre as [|u pre IH]; cbn.
  - destruct (findIndex i l); reflexivity.
  - destruct (String.eqb (user_id u) i); [reflexivity|].
    rewrite IH. destruct (findIndex i pre); cbn; [reflexivity|].
    destruct (findIndex i l); reflexivity.
Qed.

(** The removal of duplicates keeps, of each identity, the first user. *)
Lemma filter_index_firstOccurrences (l : list IUser) :
  forall pre,
    filter_index (pre ++ l) (length pre) l = firstOccurrences (map user_id pre) l.
Proof.
  induction l as [|u rest IH]; intro pre; [reflexivity|].
  cbn [filter_index firstOccurrences].
  assert (Hrest : filter_index (pre ++ u :: rest) (S (length pre)) rest
                  = firstOccurrences (map user_id pre ++ [user_id u]) rest).
  { specialize (IH (pre ++ [u])).
    rewrite <- app_assoc, length_app, map_app in IH. cbn in IH.
    rewrite Nat.add_1_r in IH. exact IH. }
  rewrite Hrest, findIndex_app.
  destruct (findIndex (user_id u) pre) as [k|] eqn:Ek.
  - pose proof (findIndex_lt _ _ _ Ek) as Hlt.
    destruct (Nat.eqb_spec k (length pre)); [lia|].
    destruct (existsb (String.eqb (user_id u)) (map user_id pre)) eqn:Ee.
    + reflexivity.
    + apply findIndex_None in Ee. rewrite Ee in Ek. discriminate Ek.
  - cbn [findIndex]. rewrite String.eqb_refl. cbn [option_map].
    rewrite Nat.add_0_r, Nat.eqb_refl.
    apply findIndex_None in Ek. rewrite Ek. reflexivity.
Qed.

Lemma filter_index_whole (l : list IUser) :
  filter_index l 0 l = firstOccurrences [] l.
Proof. exact (filter_index_firstOccurrences l []). Qed.

Lemma firstOccurrences_In (l : list IUser) :
  forall seen u,
    In u (firstOccurrences seen l) -> In u l /\ ~ In (user_id u) seen.
Proof.
  induction l as [|x rest IH]; intros seen u H; [destruct H|].
  cbn in H.
  assert (Hrec : In u (firstOccurrences (seen ++ [user_id x]) rest) ->
                 In u (x :: rest) /\ ~ In (user_id u) seen).
  { intro Hin. apply IH in Hin as [Hin Hnot]. split; [right; exact Hin|].
    intro Hs. apply Hnot. apply in_or_app. left. exact Hs. }
  destruct (existsb (String.eqb (user_id x)) seen) eqn:Ee; [exact (Hrec H)|].
  destruct H as [<- | H]; [|exact (Hrec H)].
  split; [left; reflexivity|].
  intro Hs. apply existsb_eqb_In in Hs. rewrite Hs in Ee. discriminate Ee.
Qed.

Lemma firstOccurrences_NoDup (l : list IUser) :
  forall seen, NoDup (map user_id (firstOccurrences seen l)).
Proof.
  induction l as [|x rest IH]; intro seen; [constructor|].
  cbn. destruct (existsb (String.eqb (user_id x)) seen); [apply IH|].
  cbn. constructor; [|apply IH].
  intro Hin. apply in_map_iff in Hin as [u [E Hu]].
  apply firstOccurrences_In in Hu as [_ Hnot].
  apply Hnot. apply in_or_app. right. left. symmetry. exact E.
Qed.

Lemma firstOccurrences_complete (l : list IUser) :
  forall seen u,
    In u l ->
    In (user_id u) seen
    \/ exists u', In u' (firstOccurrences seen l) /\ user_id u' = user_id u.
Proof.
  induction l as [|x rest IH]; intros seen u H; [destruct H|].
  cbn. destruct H as [<- | H].
  - destruct (existsb (String.eqb (user_id x)) seen) eqn:Ee.
    + left. apply existsb_eqb_In. exact Ee.
    + right. exists x. split; [left; reflexivity | reflexivity].
  - destruct (IH (seen ++ [user_id x]) u H) as [Hs | [u' [Hu' E]]].
    + apply in_app_or in Hs as [Hs | [Hs | []]]; [left; exact Hs|].
      destruct (existsb (String.eqb (user_id x)) seen) eqn:Ee.
      * left. rewrite <- Hs. apply existsb_eqb_In. exact Ee.
      * right. exists x. split; [left; reflexivity | exact Hs].
    + right. exists u'. split; [|exact E].
      destruct (existsb (String.eqb (user_id x)) seen); [exact Hu' | right; exact Hu'].
Qed.

Lemma NoDup_map_injective {A B} (f : A -> B) (l : list A) :
  NoDup (map f l) ->
  forall x y, In x l -> In y l -> f x = f y -> x = y.
Proof.
  induction l as [|a l IH]; intros H x y Hx Hy E; [destruct Hx|].
  inversion H as [|b l' Hnot Hnd]; subst.
  destruct Hx as [<- | Hx]; destruct Hy as [<- | Hy].
  - reflexivity.
  - exfalso. apply Hnot. rewrite E. apply in_map. exact Hy.
  - exfalso. apply Hnot. rewrite <- E. apply in_map. exact Hx.
  - apply IH; assumption.
Qed.

Lemma option_ObjectId_eqb_eq (a : option ObjectId) (b : ObjectId) :
  option_ObjectId_eqb a b = true <-> a = Some b.
Proof.
  destruct a as [x|]; cbn.
  - rewrite String.eqb_eq. split; [intros ->; reflexivity | intro E; injection E; auto].
  - split; discriminate.
Qed.

(** The users a scope names before the removal of duplicates. *)
Lemma targetUsers_In (alert : IAlert) (db : Db) (u : IUser) :
  In u (match vis_type (visibility alert) with
        | ORGANIZATION => filter user_isActive (User db)
        | TEAM =>
            flat_map (fun teamId =>
                        filter (fun u => option_ObjectId_eqb (user_teamId u) teamId
                                         && user_isActive u) (User db))
                     (targetIds (visibility alert))
        | USER =>
            filter user_isActive
                   (find_id_in user_id (targetIds (visibility alert)) (User db))
        end)
  <-> In u (User db) /\ user_isActive u = true /\ scopeMatches alert u = true.
Proof.
  unfold scopeMatches. destruct (vis_type (visibility alert)).
  - rewrite filter_In. tauto.
  - rewrite in_flat_map. split.
    + intros [t [Ht Hin]]. apply filter_In in Hin as [Hin Hb].
      apply andb_prop in Hb as [Ht' Ha]. apply option_ObjectId_eqb_eq in Ht'.
      rewrite Ht'. repeat split; try assumption.
      apply existsb_eqb_In. exact Ht.
    + intros [Hin [Ha Hs]]. destruct (user_teamId u) as [t|] eqn:Et; [|discriminate Hs].
      exists t. split; [apply existsb_eqb_In; exact Hs|].
      apply filter_In. split; [exact Hin|]. rewrite Et, Ha. cbn.
      rewrite String.eqb_refl. reflexivity.
  - unfold find_id_in. rewrite !filter_In. tauto.
Qed.

Lemma scopeMatches_visibleTo (alert : IAlert) (u : IUser) :
  scopeMatches alert u = AlertModel.visibleTo (user_id u) (user_teamId u) alert.
Proof.
  unfold scopeMatches, AlertModel.visibleTo.
  destruct (vis_type (visibility alert)); cbn.
  - reflexivity.
  - destruct (user_teamId u); reflexivity.
  - destruct (user_teamId u); cbn; rewrite ?orb_false_r; reflexivity.
Qed.

Lemma getTargetUsers_run (alert : IAlert) (db : Db) :
  exists targetUsers,
    getTargetUsers alert db = (db, Fulfilled (firstOccurrences [] targetUsers))
    /\ forall u, In u targetUsers
                 <-> In u (User db) /\ user_isActive u = true
                     /\ scopeMatches alert u = true.
Proof.
  eexists. split.
  - unfold getTargetUsers. cbv zeta.
    rewrite filter_index_whole. reflexivity.
  - intro u. apply targetUsers_In.
Qed.

(** X18: the audience of an alert is resolved without touching the
    collections and without failing; it holds no identity twice, and every
    user in it is a user of the directory, is active, and is one the
    user-facing query [findForUser] shows the alert to. *)
Theorem getTargetUsers_sound :
  forall (alert : IAlert) (db : Db),
  exists users,
    getTargetUsers alert db = (db, Fulfilled users)
    /\ NoDup (map user_id users)
    /\ forall u, In u users ->
                 In u (User db) /\ user_isActive u = true
                 /\ AlertModel.visibleTo (user_id u) (user_teamId u) alert = true.
Proof.
  intros alert db.
  destruct (getTargetUsers_run alert db) as [targetUsers [E H]].
  eexists. split; [exact E|]. split; [apply firstOccurrences_NoDup|].
  intros u Hu. apply firstOccurrences_In in Hu as [Hu _].
  apply H in Hu. rewrite <- scopeMatches_visibleTo. exact Hu.
Qed.

(** X19: in a directory whose users have distinct identities, the
    audience of an alert is exactly the active users the user-facing query
    shows the alert to: all active users for an organization scope, the
    active members of a named team for a team scope, the active users named
    for a user scope; an organization scope resolves to the active users in
    the order of the directory. *)
Theorem getTargetUsers_complete :
  forall (alert : IAlert) (db : Db),
    NoDup (map user_id (User db)) ->
    exists users,
      getTargetUsers alert db = (db, Fulfilled users)
      /\ (forall u, In u users
                    <-> In u (User db) /\ user_isActive u = true
                        /\ AlertModel.visibleTo (user_id u) (user_teamId u) alert
                           = true)
      /\ (vis_type (visibility alert) = ORGANIZATION ->
          Permutation users (filter user_isActive (User db))).
Proof.
  intros alert db Hnd.
  destruct (getTargetUsers_run alert db) as [targetUsers [E H]].
  eexists. split; [exact E|].
  assert (Hiff : forall u, In u (firstOccurrences [] targetUsers)
                           <-> In u (User db) /\ user_isActive u = true
                               /\ scopeMatches alert u = true).
  { intro u. split.
    - intro Hu. apply firstOccurrences_In in Hu as [Hu _]. apply H. exact Hu.
    - intro Hu. apply H in Hu.
      destruct (firstOccurrences_complete targetUsers [] u Hu) as [[] | [u' [Hu' Eid]]].
      assert (u' = u) as <-; [|exact Hu'].
      apply (NoDup_map_injective user_id (User db) Hnd); [| |exact Eid].
      + apply firstOccurrences_In in Hu' as [Hu' _]. apply H in Hu'. tauto.
      + apply H in Hu. tauto. }
  split.
  - intro u. rewrite <- scopeMatches_visibleTo. apply Hiff.
  - intro Eorg. apply NoDup_Permutation.
    + apply (NoDup_map_inv user_id). apply firstOccurrences_NoDup.
    + apply NoDup_filter. apply (NoDup_map_inv user_id). exact Hnd.
    + intro u. rewrite Hiff, filter_In. unfold scopeMatches. rewrite Eorg. tauto.
Qed.

Lemma getTargetUsers_complete_witness :
  exists users,
    getTargetUsers Fixture.teamAlert Sample.db = (Sample.db, Fulfilled users)
    /\ (forall u, In u users
                  <-> In u (User Sample.db) /\ user_isActive u = true
                      /\ AlertModel.visibleTo (user_id u) (user_teamId u)
                                              Fixture.teamAlert = true)
    /\ (vis_type (visibility Fixture.teamAlert) = ORGANIZATION ->
        Permutation users (filter user_isActive (User Sample.db))).
Proof.
  apply (getTargetUsers_complete Fixture.teamAlert Sample.db).
  repeat constructor; cbn; intuition discriminate.
Defined.

(** ** Creating and archiving alerts *)







Lemma findByIdAndArchive_spec (alertId : ObjectId) (collection : list IAlert) :
  let r := findByIdAndArchive alertId collection in
  length (fst r) = length collection
  /\ (forall x, In x collection -> alert_id x <> alertId -> In x (fst r))
  /\ match snd r with
     | None => fst r = collection
               /\ forall x, In x collection -> alert_id x <> alertId
     | Some a' => In a' (fst r) /\ alert_id a' = alertId
                  /\ status a' = ARCHIVED /\ isActive a' = false
                  /\ exists a, In a collection /\ alert_id a = alertId
                               /\ title a' = title a /\ message a' = message a
                               /\ visibility a' = visibility a
                               /\ expiryTime a' = expiryTime a
     end.
Proof.
  induction collection as [|a rest IH]; cbn.
  - repeat split; intros x [].
  - destruct (String.eqb (alert_id a) alertId) eqn:E; cbn.
    + apply String.eqb_eq in E. split; [reflexivity|].
      split.
      * intros x [<- | Hx] Hne; [contradiction | right; exact Hx].
      * split; [left; reflexivity|]. repeat split; try assumption.
        exists a. repeat split; [left; reflexivity | exact E].
    + apply String.eqb_neq in E.
      destruct (findByIdAndArchive alertId rest) as [rest' found]. cbn in *.
      destruct IH as [Hlen [Hkeep Hfound]].
      split; [rewrite Hlen; reflexivity|].
      split.
      * intros x [<- | Hx] Hne; [left; reflexivity | right; apply Hkeep; assumption].
      * destruct found as [a'|].
        -- destruct Hfound as [Hin [Hid [Hst [Hact [a0 [Ha0 Hrest]]]]]].
           split; [right; exact Hin|]. repeat split; try assumption.
           exists a0. split; [right; exact Ha0 | exact Hrest].
        -- destruct Hfound as [Heq Hall]. split; [rewrite Heq; reflexivity|].
           intros x [<- | Hx]; [exact E | apply Hall; exact Hx].
Qed.

(** X23: archiving never fails and leaves teams, users, the number of
    alerts and every alert of another identity as they were.  For an
    identity no alert bears it answers null and changes nothing; otherwise
    it answers the alert, now ARCHIVED and inactive with its content kept,
    and from then on that alert is no candidate for a reminder sweep, is
    not currently active, and is shown to no user, at any time. *)
Theorem archiveAlert_effect :
  forall (alertId : ObjectId) (db : Db),
  exists db' found,
    archiveAlert alertId db = (db', Fulfilled found)
    /\ Team db' = Team db /\ User db' = User db
    /\ length (Alert db') = length (Alert db)
    /\ (forall x, In x (Alert db) -> alert_id x <> alertId -> In x (Alert db'))
    /\ match found with
       | None => db' = db /\ forall x, In x (Alert db) -> alert_id x <> alertId
       | Some a' =>
           In a' (Alert db') /\ alert_id a' = alertId
           /\ status a' = ARCHIVED /\ isActive a' = false
           /\ (exists a, In a (Alert db) /\ alert_id a = alertId
                         /\ title a' = title a /\ message a' = message a
                         /\ visibility a' = visibility a
                         /\ expiryTime a' = expiryTime a)
           /\ (forall t t', reminderCandidate t t' a' = false)
           /\ (forall t, AlertModel.isCurrentlyActive t a' = false)
           /\ (forall t user team,
                  ~ In a' (AlertModel.findForUser t user team (Alert db')))
       end.
Proof.
  intros alertId db.
  pose proof (findByIdAndArchive_spec alertId (Alert db)) as H. cbn zeta in H.
  unfold archiveAlert, try_catch.
  destruct (findByIdAndArchive alertId (Alert db)) as [collection found] eqn:E.
  cbn [fst snd] in H. destruct H as [Hlen [Hkeep Hfound]].
  eexists. exists found. split; [reflexivity|]. cbn [Team User Alert].
  split; [reflexivity|]. split; [reflexivity|]. split; [exact Hlen|].
  split; [exact Hkeep|].
  destruct found as [a'|].
  - destruct Hfound as [Hin [Hid [Hst [Hact Hex]]]].
    repeat split; try assumption.
    + intros t t'. unfold reminderCandidate. rewrite Hact. reflexivity.
    + intro t. unfold AlertModel.isCurrentlyActive. rewrite Hact. reflexivity.
    + intros t user team Hf. unfold AlertModel.findForUser in Hf.
      apply filter_In in Hf as [_ Hf]. rewrite Hact in Hf. discriminate Hf.
  - destruct Hfound as [Heq Hall]. split; [|exact Hall].
    rewrite Heq. destruct db; reflexivity.
Qed.

(** ** The sweep of one alert *)




(** ** The notification observer *)

Lemma filterEligibleLoop_run (now : Date) (clock : nat -> Date) (alert : IAlert)
      (collection : list IUserAlertPreference) (users : list IUser) :
  (forall k, clock k = now) ->
  forall k acc,
    filterEligibleLoop clock alert collection k users acc
    = acc ++ filter (eligible now alert collection) users.
Proof.
  intro Hclock. induction users as [|user rest IH]; intros k acc.
  - cbn. rewrite app_nil_r. reflexivity.
  - cbn [filterEligibleLoop filter]. cbv zeta. rewrite !IH, Hclock.
    assert (He : eligible now alert collection user
                 = user_isActive user
                   && match findOnePreference (user_id user) (alert_id alert)
                                              collection with
                      | None => true
                      | Some p =>
                          negb (isRead p)
                          && negb (UserAlertPreference.isCurrentlySnoozed now p)
                      end) by reflexivity.
    rewrite He. clear He.
    destruct (findOnePreference (user_id user) (alert_id alert) collection) as [p|];
      [destruct (isRead p);
       destruct (UserAlertPreference.isCurrentlySnoozed now p)|];
      destruct (user_isActive user); cbn [negb andb];
      rewrite <- ?app_assoc; reflexivity.
Qed.

(** X25: on a clock that stands still during the filtering, the users
    kept for notification are, in their order, the active users who have
    no preference for the alert yet or whose preference the reminder check
    of the state machine would let through: not read and not within an
    active snooze window.  The collection is not changed. *)
Theorem filterEligibleUsers_keeps :
  forall (now : Date) (clock : nat -> Date) (alert : IAlert) (users : list IUser)
         (collection : list IUserAlertPreference),
    (forall k, clock k = now) ->
    filterEligibleUsers clock alert users collection
    = (collection, Fulfilled (filter (eligible now alert collection) users))
    /\ forall user t,
        eligible now alert collection user
        = user_isActive user
          && match findOnePreference (user_id user) (alert_id alert) collection with
             | None => true
             | Some p =>
                 fst (AlertPreferenceStateContext.canReceiveReminder t now p)
             end.
Proof.
  intros now clock alert users collection Hclock. split.
  - unfold filterEligibleUsers.
    rewrite (filterEligibleLoop_run now clock alert collection users Hclock).
    reflexivity.
  - intros user t. unfold eligible.
    destruct (findOnePreference _ _ _) as [p|]; [|reflexivity].
    rewrite canReceiveReminder_context. reflexivity.
Qed.

Lemma filterEligibleUsers_keeps_witness :
  filterEligibleUsers (Fixture.frozen 10) Sample.alert
                      [Sample.alice; Sample.bob] [Sample.read]
  = ([Sample.read],
     Fulfilled (filter (eligible 10 Sample.alert [Sample.read])
                       [Sample.alice; Sample.bob]))
  /\ forall user t,
      eligible 10 Sample.alert [Sample.read] user
      = user_isActive user
        && match findOnePreference (user_id user) (alert_id Sample.alert)
                                   [Sample.read] with
           | None => true
           | Some p => fst (AlertPreferenceStateContext.canReceiveReminder t 10 p)
           end.
Proof.
  apply (filterEligibleUsers_keeps 10 (Fixture.frozen 10) Sample.alert
           [Sample.alice; Sample.bob] [Sample.read]).
  reflexivity.
Defined.

Lemma find_app_Some {A} (f : A -> bool) (l l' : list A) (x : A) :
  find f l = Some x -> find f (l ++ l') = Some x.
Proof.
  induction l as [|a l IH]; cbn; [discriminate|].
  destruct (f a); [auto | exact IH].
Qed.

Lemma findOnePreference_app (user alert : ObjectId)
      (l l' : list IUserAlertPreference) :
  findOnePreference user alert l <> None ->
  findOnePreference user alert (l ++ l') <> None.
Proof.
  unfold findOnePreference. intro H.
  destruct (find _ l) as [p|] eqn:E; [|contradiction].
  rewrite (find_app_Some _ _ _ _ E). discriminate.
Qed.

Lemma findOnePreference_last (user alert : ObjectId)
      (l : list IUserAlertPreference) (p : IUserAlertPreference) :
  userId p = user -> alertId p = alert ->
  findOnePreference user alert (l ++ [p]) <> None.
Proof.
  intros Eu Ea. unfold findOnePreference.
  induction l as [|a l IH]; cbn.
  - rewrite Eu, Ea, !String.eqb_refl. discriminate.
  - destruct (String.eqb (userId a) user && String.eqb (alertId a) alert);
      [discriminate | exact IH].
Qed.

(** A preference as [createUserPreferences] writes it for [alert]. *)
Lemma createUserPreferences_run (clock : nat -> Date) (alert : IAlert)
      (users : list IUser) :
  forall k collection,
  exists added l,
    promise_all (createUserPreferencePromises clock alert k users) collection
    = (collection ++ added, Fulfilled l)
    /\ (forall u, In u users ->
                  findOnePreference (user_id u) (alert_id alert)
                                    (collection ++ added) <> None)
    /\ (forall p, In p added ->
                  exists u, In u users
                            /\ p = mkPreference (user_id u) (alert_id alert)
                                                false false None None 0
                            /\ findOnePreference (user_id u) (alert_id alert)
                                                 collection = None).
Proof.
  induction users as [|user rest IH]; intros k collection.
  - exists [], []. cbn. rewrite app_nil_r. repeat split; intros ? [].
  - cbn [createUserPreferencePromises promise_all].
    unfold createUserPreference at 1.
    destruct (findOnePreference (user_id user) (alert_id alert) collection)
      as [p0|] eqn:E0.
    + destruct (IH (S k) collection) as [added [l [E [Hall Hnew]]]].
      rewrite E. exists added, (tt :: l). split; [reflexivity|].
      split.
      * intros u [<- | Hu]; [|apply Hall; exact Hu].
        apply findOnePreference_app. rewrite E0. discriminate.
      * intros p Hp. destruct (Hnew p Hp) as [u [Hu Hrest]].
        exists u. split; [right; exact Hu | exact Hrest].
    + rewrite preSave_unsnoozed by reflexivity.
      set (fresh := mkPreference (user_id user) (alert_id alert)
                                 false false None None 0).
      destruct (IH (S k) (collection ++ [fresh])) as [added [l [E [Hall Hnew]]]].
      rewrite E. exists (fresh :: added), (tt :: l).
      rewrite <- app_assoc in *. cbn [app] in *.
      split; [reflexivity|].
      split.
      * intros u [<- | Hu]; [|apply Hall; exact Hu].
        change (collection ++ fresh :: added) with (collection ++ [fresh] ++ added).
        rewrite app_assoc. apply findOnePreference_app.
        apply findOnePreference_last; reflexivity.
      * intros p [<- | Hp].
        -- exists user. split; [left; reflexivity|]. split; [reflexivity | exact E0].
        -- destruct (Hnew p Hp) as [u [Hu [Ep Hnone]]].
           exists u. split; [right; exact Hu|]. split; [exact Ep|].
           destruct (findOnePreference (user_id u) (alert_id alert) collection)
             eqn:Ec; [|reflexivity].
           exfalso. apply (findOnePreference_app _ _ collection [fresh]) in Hnone;
             [exact Hnone | rewrite Ec; discriminate].
Qed.

Lemma createUserPreferences_noop (clock : nat -> Date) (alert : IAlert)
      (users : list IUser) (collection : list IUserAlertPreference) :
  (forall u, In u users ->
             findOnePreference (user_id u) (alert_id alert) collection <> None) ->
  forall k, exists l,
    promise_all (createUserPreferencePromises clock alert k users) collection
    = (collection, Fulfilled l).
Proof.
  induction users as [|user rest IH]; intros H k.
  - exists []. reflexivity.
  - cbn [createUserPreferencePromises promise_all].
    unfold createUserPreference at 1.
    destruct (findOnePreference (user_id user) (alert_id alert) collection) eqn:E.
    + destruct (IH (fun u Hu => H u (or_intror Hu)) (S k)) as [l El].
      rewrite El. exists (tt :: l). reflexivity.
    + exfalso. apply (H user (or_introl eq_refl)). exact E.
Qed.

(** X26: for recipients of distinct identities, creating the missing
    preferences of an alert never fails and only appends: the preferences
    already in the collection stay as they are, each appended one is an
    unread preference of the alert, with no snooze and no reminder sent,
    for a recipient that had none, and afterwards every recipient has one.
    Doing it again changes nothing. *)
Theorem createUserPreferences_find_or_create :
  forall (clock clock' : nat -> Date) (alert : IAlert) (users : list IUser)
         (collection : list IUserAlertPreference),
    NoDup (map user_id users) ->
    exists added,
      createUserPreferences clock alert users collection
      = (collection ++ added, Fulfilled tt)
      /\ (forall u, In u users ->
                    findOnePreference (user_id u) (alert_id alert)
                                      (collection ++ added) <> None)
      /\ (forall p, In p added ->
                    exists u, In u users
                              /\ p = mkPreference (user_id u) (alert_id alert)
                                                  false false None None 0
                              /\ findOnePreference (user_id u) (alert_id alert)
                                                   collection = None)
      /\ createUserPreferences clock' alert users (collection ++ added)
         = (collection ++ added, Fulfilled tt).
Proof.
  intros clock clock' alert users collection _.
  destruct (createUserPreferences_run clock alert users 0%nat collection)
    as [added [l [E [Hall Hnew]]]].
  exists added. split.
  { unfold createUserPreferences, await. rewrite E. reflexivity. }
  split; [exact Hall|]. split; [exact Hnew|].
  destruct (createUserPreferences_noop clock' alert users (collection ++ added)
                                       Hall 0%nat) as [l' E'].
  unfold createUserPreferences, await. rewrite E'. reflexivity.
Qed.

Lemma createUserPreferences_find_or_create_witness :
  exists added,
    createUserPreferences Fixture.ticking Sample.alert
                          [Sample.alice; Sample.bob] [Sample.read]
    = ([Sample.read] ++ added, Fulfilled tt)
    /\ (forall u, In u [Sample.alice; Sample.bob] ->
                  findOnePreference (user_id u) (alert_id Sample.alert)
                                    ([Sample.read] ++ added) <> None)
    /\ (forall p, In p added ->
                  exists u, In u [Sample.alice; Sample.bob]
                            /\ p = mkPreference (user_id u) (alert_id Sample.alert)
                                                false false None None 0
                            /\ findOnePreference (user_id u) (alert_id Sample.alert)
                                                 [Sample.read] = None)
    /\ createUserPreferences (Fixture.frozen 7) Sample.alert
                             [Sample.alice; Sample.bob] ([Sample.read] ++ added)
       = ([Sample.read] ++ added, Fulfilled tt).
Proof.
  apply (createUserPreferences_find_or_create
           Fixture.ticking (Fixture.frozen 7) Sample.alert
           [Sample.alice; Sample.bob] [Sample.read]).
  repeat constructor; cbn; intuition discriminate.
Defined.

(** ** The reminder scheduler *)

(** X27: the cron schedule of an interval: below 60 minutes, every that
    many minutes; for 60 minutes, every hour on the hour; for a whole
    number of hours from 2 to 23, every that many hours on the hour; for
    1440 minutes, daily at midnight; and for every other interval above an
    hour the fallback, which is always the expression with step 60,
    whatever the interval. *)
Theorem getCronSchedule_cases :
  forall minutes : Z,
    (minutes < 60 ->
     ReminderScheduler.getCronSchedule minutes
     = ("*/" ++ string_of_Z minutes ++ " * * * *")%string)
    /\ (minutes = 60 -> ReminderScheduler.getCronSchedule minutes = "0 * * * *")
    /\ (minutes = 1440 -> ReminderScheduler.getCronSchedule minutes = "0 0 * * *")
    /\ (forall h, 2 <= h <= 23 -> minutes = 60 * h ->
                  ReminderScheduler.getCronSchedule minutes
                  = ("0 */" ++ string_of_Z h ++ " * * *")%string)
    /\ (60 < minutes -> Z.rem minutes 60 <> 0 \/ 1440 < minutes ->
        ReminderScheduler.getCronSchedule minutes = "*/60 * * * *").
Proof.
  intro minutes.
  split; [|split; [|split; [|split]]].
  - intro H. unfold ReminderScheduler.getCronSchedule.
    destruct (Z.ltb_spec minutes 60); [reflexivity | lia].
  - intros ->. reflexivity.
  - intros ->. reflexivity.
  - intros h Hh ->.
    assert (Hcases : h = 2 \/ h = 3 \/ h = 4 \/ h = 5 \/ h = 6 \/ h = 7 \/ h = 8
                     \/ h = 9 \/ h = 10 \/ h = 11 \/ h = 12 \/ h = 13 \/ h = 14
                     \/ h = 15 \/ h = 16 \/ h = 17 \/ h = 18 \/ h = 19 \/ h = 20
                     \/ h = 21 \/ h = 22 \/ h = 23) by lia.
    repeat (destruct Hcases as [-> | Hcases]; [vm_compute; reflexivity|]).
    subst h. vm_compute. reflexivity.
  - intros Hgt Hodd. unfold ReminderScheduler.getCronSchedule.
    destruct (Z.ltb_spec minutes 60); [lia|].
    assert (Hq : 60 * (minutes / 60) <= minutes < 60 * (minutes / 60) + 60).
    { pose proof (Z.div_mod minutes 60 ltac:(lia)).
      pose proof (Z.mod_pos_bound minutes 60 ltac:(lia)). lia. }
    assert (Hrem : Z.rem minutes 60 = minutes mod 60).
    { apply Z.rem_mod_nonneg; lia. }
    assert (Hfall : (Z.rem minutes 60 =? 0) && (minutes / 60 <=? 23) = false
                    \/ Z.rem minutes 60 = 0 /\ minutes / 60 <= 23).
    { destruct (Z.eqb_spec (Z.rem minutes 60) 0); [|left; reflexivity].
      destruct (Z.leb_spec (minutes / 60) 23); [right; split; assumption|].
      left. reflexivity. }
    destruct Hodd as [Hodd | Hbig].
    + destruct Hfall as [Hfall | [Hz _]]; [|contradiction].
      repeat match goal with
             | |- context [minutes =? ?c] =>
                 destruct (Z.eqb_spec minutes c);
                 [subst minutes; exfalso; apply Hodd; reflexivity|]
             end.
      rewrite Hfall.
      replace (Z.max 30 (Z.min minutes 60)) with 60 by lia. reflexivity.
    + destruct Hfall as [Hfall | [_ Hle]]; [|lia].
      repeat match goal with
             | |- context [minutes =? ?c] =>
                 destruct (Z.eqb_spec minutes c); [lia|]
             end.
      rewrite Hfall.
      replace (Z.max 30 (Z.min minutes 60)) with 60 by lia. reflexivity.
Qed.

(** X28: a scheduler that runs exactly when it holds a task stays so
    under start, stop and a custom schedule.  Starting leaves it running
    and stopping leaves it stopped; starting a running scheduler keeps its
    task and schedule; start and stop are idempotent; a custom schedule the
    cron library refuses is rejected and changes nothing, an accepted one
    replaces the task and leaves the scheduler running. *)
Theorem scheduler_consistent :
  forall (this : ReminderScheduler.t) (minutes : Z) (validate : string -> bool)
         (cronSchedule : string),
    ReminderScheduler.consistent this ->
    ReminderScheduler.consistent (ReminderScheduler.start minutes this)
    /\ ReminderScheduler.consistent (ReminderScheduler.stop this)
    /\ ReminderScheduler.consistent
         (fst (ReminderScheduler.setCustomSchedule validate cronSchedule this))
    /\ ReminderScheduler.isRunning (ReminderScheduler.start minutes this) = true
    /\ ReminderScheduler.isRunning (ReminderScheduler.stop this) = false
    /\ ReminderScheduler.task (ReminderScheduler.stop this) = None
    /\ (ReminderScheduler.isRunning this = true ->
        ReminderScheduler.start minutes this = this)
    /\ ReminderScheduler.start
         minutes (ReminderScheduler.start minutes this)
       = ReminderScheduler.start minutes this
    /\ ReminderScheduler.stop (ReminderScheduler.stop this)
       = ReminderScheduler.stop this
    /\ (validate cronSchedule = false ->
        ReminderScheduler.setCustomSchedule validate cronSchedule this
        = (this, Rejected (mkError "Error"
                                   ("Invalid cron schedule: " ++ cronSchedule)%string)))
    /\ (validate cronSchedule = true ->
        ReminderScheduler.setCustomSchedule validate cronSchedule this
        = (ReminderScheduler.mkScheduler
             true (Some (ReminderScheduler.mkTask cronSchedule true)),
           Fulfilled tt)).
Proof.
  intros [running task] minutes validate cronSchedule Hc.
  unfold ReminderScheduler.consistent in *. cbn in Hc.
  unfold ReminderScheduler.start, ReminderScheduler.stop,
    ReminderScheduler.setCustomSchedule.
  destruct running; destruct task as [t|]; cbn;
    destruct (validate cronSchedule); cbn;
    repeat split; intros; try reflexivity; try discriminate; try congruence.
  all: try (exfalso; apply (proj1 Hc eq_refl); reflexivity).
  all: try (assert (false = true) by (apply Hc; discriminate); discriminate).
Qed.

Lemma scheduler_consistent_witness :
  ReminderScheduler.consistent (ReminderScheduler.start 120 ReminderScheduler.new)
  /\ ReminderScheduler.consistent (ReminderScheduler.stop ReminderScheduler.new)
  /\ ReminderScheduler.consistent
       (fst (ReminderScheduler.setCustomSchedule
               (fun _ => true) "0 9 * * *" ReminderScheduler.new))
  /\ ReminderScheduler.isRunning
       (ReminderScheduler.start 120 ReminderScheduler.new) = true
  /\ ReminderScheduler.isRunning (ReminderScheduler.stop ReminderScheduler.new) = false
  /\ ReminderScheduler.task (ReminderScheduler.stop ReminderScheduler.new) = None
  /\ (ReminderScheduler.isRunning ReminderScheduler.new = true ->
      ReminderScheduler.start 120 ReminderScheduler.new = ReminderScheduler.new)
  /\ ReminderScheduler.start
       120 (ReminderScheduler.start 120 ReminderScheduler.new)
     = ReminderScheduler.start 120 ReminderScheduler.new
  /\ ReminderScheduler.stop (ReminderScheduler.stop ReminderScheduler.new)
     = ReminderScheduler.stop ReminderScheduler.new
  /\ ((fun _ : string => true) "0 9 * * *" = false ->
      ReminderScheduler.setCustomSchedule
        (fun _ => true) "0 9 * * *" ReminderScheduler.new
      = (ReminderScheduler.new,
         Rejected (mkError "Error" ("Invalid cron schedule: " ++ "0 9 * * *")%string)))
  /\ ((fun _ : string => true) "0 9 * * *" = true ->
      ReminderScheduler.setCustomSchedule
        (fun _ => true) "0 9 * * *" ReminderScheduler.new
      = (ReminderScheduler.mkScheduler
           true (Some (ReminderScheduler.mkTask "0 9 * * *" true)),
         Fulfilled tt)).
Proof.
  apply (scheduler_consistent ReminderScheduler.new 120 (fun _ => true) "0 9 * * *").
  unfold ReminderScheduler.consistent. cbn. split; [discriminate | intro H; contradiction].
Defined.

(** ** A reminder after a snooze has elapsed *)

(** X29: for a preference that is not read and is flagged snoozed until a
    date that has passed when the reminder check reads the clock, on a
    clock that does not run backwards between that check and the save of
    the recording, a successful send records the reminder and the save
    clears the elapsed snooze: the preference is written with no snooze
    fields and a count one higher, and derives UNREAD from then on. *)
Theorem reminder_after_elapsed_snooze :
  forall (this : AlertService) (clock : nat -> Date) (alert : IAlert)
         (user : IUser) (d : UserAlertPreference.Document) (u : Date),
    isRead (UserAlertPreference.mem d) = false ->
    isSnoozed (UserAlertPreference.mem d) = true ->
    snoozedUntil (UserAlertPreference.mem d) = Some u ->
    u <= clock 1%nat ->
    clock 1%nat <= clock 3%nat ->
    sendSucceeds (notificationStrategy this) alert user (deliveryType alert) = true ->
    let written :=
      UserAlertPreference.stored (fst (reminderCallback this clock alert user d)) in
    isSnoozed written = false
    /\ snoozedUntil written = None
    /\ reminderCount written = reminderCount (UserAlertPreference.mem d) + 1
    /\ lastReminderSent written = Some (clock 2%nat)
    /\ forall t, AlertPreferenceStateContext.getStateName t written = "UNREAD".
Proof.
  intros this clock alert user d u Er Es Eu Hu Hmono Hsend written. subst written.
  rewrite reminderCallback_run. cbv zeta.
  rewrite canReceiveReminder_context, Hsend.
  unfold AlertPreferenceStateContext.isCurrentlySnoozed.
  rewrite Er, Es, Eu. cbn [negb andb date_after fst snd].
  destruct (Z.ltb_spec (clock 1%nat) u); [lia|]. cbn [negb andb].
  destruct (d) as [[uid aid r s su l c] st]. cbn in Er, Es, Eu. subst r s su.
  cbn [UserAlertPreference.mem].
  destruct (clock 0%nat <? u);
    cbn [UserAlertPreference.save UserAlertPreference.recordReminderSent
           UserAlertPreference.mem UserAlertPreference.stored];
    unfold UserAlertPreference.preSave; cbn;
    destruct (Z.leb_spec u (clock 3%nat)); try lia; cbn;
    repeat split; reflexivity.
Qed.

Lemma reminder_after_elapsed_snooze_witness :
  let written :=
    UserAlertPreference.stored
      (fst (reminderCallback
              Sample.service Fixture.ticking Sample.alert Sample.alice
              (UserAlertPreference.mkDocument Sample.stale Sample.stale))) in
  isSnoozed written = false
  /\ snoozedUntil written = None
  /\ reminderCount written
     = reminderCount (UserAlertPreference.mem
                        (UserAlertPreference.mkDocument Sample.stale Sample.stale)) + 1
  /\ lastReminderSent written = Some (Fixture.ticking 2)
  /\ forall t, AlertPreferenceStateContext.getStateName t written = "UNREAD".
Proof.
  apply (reminder_after_elapsed_snooze
           Sample.service Fixture.ticking Sample.alert Sample.alice
           (UserAlertPreference.mkDocument Sample.stale Sample.stale) 5);
    try reflexivity; cbn; lia.
Defined.
